(** * weather-api: the weather service, embedded and verified

    A shallow embedding of [src/weather/weather.service.ts]: the
    [WeatherService] class with its cache-aside read paths
    ([getWeatherByCity], [getFiveDayForecast]), the geocoding and fetch
    helpers, the two formatters, [groupForecastByDate] and
    [formatUnixTime].

    JavaScript numbers are IEEE binary64 values (Rocq's primitive
    floats); [Number.prototype.toFixed] and the number-to-string
    conversion of template literals are written out on their exact
    binary value.  Strings are byte strings holding UTF-8.  Thrown
    exceptions are the [Err] side of a result type, and the service's
    effects (cache reads and writes, outbound requests, console output)
    are threaded through a small state-and-error monad. *)

From Stdlib Require Import ZArith QArith Qround Qabs String Ascii.
From Stdlib Require Import PrimFloat SpecFloat FloatOps DecimalString DecimalN DecimalPos.
From stdpp Require Import gmap strings list.

Open Scope Z_scope.

(** A decimal literal denotes the binary64 value nearest to it, as it
    does when the provider's JSON is parsed. *)
Set Warnings "-inexact-float".

(** ** JavaScript numbers *)

Module JsNumber.

(** The digits of the decimal representation of a non-negative integer. *)
Definition decimalDigits (n : Z) : string :=
  NilZero.string_of_uint (N.to_uint (Z.to_N n)).

Fixpoint zeros (n : nat) : string :=
  match n with
  | O => ""
  | S n' => String "0" (zeros n')
  end.

Definition substring_to (n : nat) (s : string) : string :=
  String.substring 0 n s.

Definition substring_from (n : nat) (s : string) : string :=
  String.substring n (String.length s - n) s.

Definition pow2Q (e : Z) : Q :=
  if 0 <=? e then inject_Z (2 ^ e) else Qmake 1 (Z.to_pos (2 ^ (- e))).

Definition pow10Q (e : Z) : Q :=
  if 0 <=? e then inject_Z (10 ^ e) else Qmake 1 (Z.to_pos (10 ^ (- e))).

Definition Qlt_bool (a b : Q) : bool := negb (Qle_bool b a).

(** The real number denoted by the finite binary64 value [m * 2^e]. *)
Definition realValue (m : positive) (e : Z) : Q :=
  Qmult (inject_Z (Z.pos m)) (pow2Q e).

(** [roundsTo m e c]: the real [c] rounds (to nearest, ties to even) to the
    binary64 value [m * 2^e]; [c] lies between the midpoints to the two
    neighbouring values, the midpoints included when [m] is even. *)
Definition roundsTo (m : positive) (e : Z) (c : Q) : bool :=
  let hi := Qmult (inject_Z (2 * Z.pos m + 1)) (pow2Q (e - 1)) in
  let lo := if (Z.pos m =? 2 ^ 52) && (-1074 <? e)
            then Qmult (inject_Z (4 * Z.pos m - 1)) (pow2Q (e - 2))
            else Qmult (inject_Z (2 * Z.pos m - 1)) (pow2Q (e - 1)) in
  if Z.even (Z.pos m)
  then Qle_bool lo c && Qle_bool c hi
  else Qlt_bool lo c && Qlt_bool c hi.

(** The least [n], searching upwards, with [v < 10^n]. *)
Fixpoint findExponent (fuel : nat) (n : Z) (v : Q) : Z :=
  match fuel with
  | O => n
  | S fuel' => if Qlt_bool v (pow10Q n) then n else findExponent fuel' (n + 1) v
  end.

(** A lower bound of the decimal exponent of [m * 2^e], from its binary
    one: [log10 2] lies between 0.30102 and 0.30103. *)
Definition exponentLowerBound (m : positive) (e : Z) : Z :=
  let l := Z.log2 (Z.pos m) + e in
  if 0 <=? l then l * 30102 / 100000 else l * 30103 / 100000.

Definition decimalValue (s n k : Z) : Q := Qmult (inject_Z s) (pow10Q (n - k)).

(** The [k]-digit decimals [s * 10^(n-k)] next to the value, below and
    above; of those that round back to it the closer one, the even one
    on a tie. *)
Definition pickDigits (m : positive) (e : Z) (nEst k : Z) : option (Z * Z) :=
  let v := realValue m e in
  let sLo := Qfloor (Qdiv v (pow10Q (nEst - k))) in
  let lo := (sLo, nEst) in
  let hi := if sLo + 1 <? 10 ^ k then (sLo + 1, nEst) else (10 ^ (k - 1), nEst + 1) in
  let cLo := decimalValue (fst lo) (snd lo) k in
  let cHi := decimalValue (fst hi) (snd hi) k in
  match roundsTo m e cLo, roundsTo m e cHi with
  | false, false => None
  | true, false => Some lo
  | false, true => Some hi
  | true, true =>
      match Qcompare (Qminus v cLo) (Qminus cHi v) with
      | Lt => Some lo
      | Gt => Some hi
      | Eq => if Z.even (fst lo) then Some lo else Some hi
      end
  end.

(** Number::toString, step 5: integers [s], [n], [k] with [k] as small as
    possible such that [s * 10^(n-k)] rounds to the value. *)
Fixpoint shortest (fuel : nat) (m : positive) (e : Z) (nEst k : Z) : Z * Z * Z :=
  match pickDigits m e nEst k with
  | Some (s, n) => (s, n, k)
  | None =>
      match fuel with
      | O => (Qfloor (Qdiv (realValue m e) (pow10Q (nEst - k))), nEst, k)
      | S fuel' => shortest fuel' m e nEst (k + 1)
      end
  end.

(** Number::toString, steps 6 to 10: plain notation for [-5 <= n <= 21],
    exponent notation otherwise. *)
Definition formatDecimal (s n k : Z) : string :=
  let ds := decimalDigits s in
  if (-5 <=? n) && (n <=? 21) then
    if k <=? n then ds +:+ zeros (Z.to_nat (n - k))
    else if 0 <? n
    then substring_to (Z.to_nat n) ds +:+ "." +:+ substring_from (Z.to_nat n) ds
    else "0." +:+ zeros (Z.to_nat (- n)) +:+ ds
  else
    let ex := n - 1 in
    let sign := if ex <? 0 then "-" else "+" in
    if k =? 1 then ds +:+ "e" +:+ sign +:+ decimalDigits (Z.abs ex)
    else substring_to 1 ds +:+ "." +:+ substring_from 1 ds
         +:+ "e" +:+ sign +:+ decimalDigits (Z.abs ex).

Definition toStringSF (x : spec_float) : string :=
  match x with
  | S754_nan => "NaN"
  | S754_zero _ => "0"
  | S754_infinity s => if s then "-Infinity" else "Infinity"
  | S754_finite s m e =>
      let nEst := findExponent 640 (exponentLowerBound m e) (realValue m e) in
      let '(d, n, k) := shortest 16 m e nEst 1 in
      (if s then "-" else "") +:+ formatDecimal d n k
  end.

(** What a template literal does to an interpolated number. *)
Definition toString (x : float) : string := toStringSF (Prim2SF x).

(** The integer [n] for which [n / 10^f - m * 2^e] is closest to zero,
    the larger one when there are two. *)
Definition roundHalfUp (m : positive) (e : Z) (f : Z) : Z :=
  if 0 <=? e then Z.pos m * 2 ^ e * 10 ^ f
  else (2 * Z.pos m * 10 ^ f + 2 ^ (- e)) / 2 ^ (1 - e).

(** toFixed, step 11: the digits of [n], padded to [f + 1] digits, with a
    point before the last [f]. *)
Definition fixedDigits (n : Z) (f : nat) : string :=
  let m := decimalDigits n in
  match f with
  | O => m
  | _ =>
      let k := String.length m in
      let m' := if (k <=? f)%nat then zeros (f + 1 - k) +:+ m else m in
      let k' := if (k <=? f)%nat then (f + 1)%nat else k in
      substring_to (k' - f) m' +:+ "." +:+ substring_from (k' - f) m'
  end.

Definition toFixedSF (f : nat) (x : spec_float) : string :=
  match x with
  | S754_nan | S754_infinity _ => toStringSF x
  | S754_zero _ => fixedDigits 0 f
  | S754_finite s m e =>
      if Qle_bool (pow10Q 21) (realValue m e) then toStringSF x
      else (if s then "-" else "") +:+ fixedDigits (roundHalfUp m e (Z.of_nat f)) f
  end.

(** [x.toFixed(f)]. *)
Definition toFixed (f : nat) (x : float) : string := toFixedSF f (Prim2SF x).

(** ToBoolean on a number: [NaN], [+0] and [-0] are falsy. *)
Definition truthy (x : float) : bool :=
  match Prim2SF x with
  | S754_nan | S754_zero _ => false
  | _ => true
  end.

(** ToIntegerOrInfinity on a finite number: truncation towards zero. *)
Definition truncate (x : float) : option Z :=
  match Prim2SF x with
  | S754_zero _ => Some 0
  | S754_finite s m e =>
      let a := if 0 <=? e then Z.pos m * 2 ^ e else Z.pos m / 2 ^ (- e) in
      Some (if s then - a else a)
  | _ => None
  end.

End JsNumber.

(** ** JavaScript strings *)

Module JsString.

Definition hexDigit (n : nat) : ascii :=
  match String.get n "0123456789ABCDEF" with
  | Some c => c
  | None => "0"%char
  end.

Definition inRange (lo hi : nat) (c : ascii) : bool :=
  let n := nat_of_ascii c in (lo <=? n)%nat && (n <=? hi)%nat.

Definition isDigit (c : ascii) : bool := inRange 48 57 c.

Fixpoint mem (c : ascii) (s : string) : bool :=
  match s with
  | EmptyString => false
  | String d s' => Ascii.eqb c d || mem c s'
  end.

(** The characters [encodeURIComponent] leaves alone. *)
Definition isUriUnreserved (c : ascii) : bool :=
  inRange 65 90 c || inRange 97 122 c || isDigit c || mem c "-_.!~*'()".

(** [encodeURIComponent] on a string held as UTF-8: every byte outside
    the unreserved set becomes [%XX]. *)
Fixpoint encodeURIComponent (s : string) : string :=
  match s with
  | EmptyString => ""
  | String c s' =>
      (if isUriUnreserved c then String c ""
       else let n := nat_of_ascii c in
            String "%" (String (hexDigit (n / 16)) (String (hexDigit (n mod 16)) "")))
      +:+ encodeURIComponent s'
  end.

Fixpoint allDigits (s : string) : bool :=
  match s with
  | EmptyString => true
  | String c s' => isDigit c && allDigits s'
  end.

Fixpoint digitsValue (acc : Z) (s : string) : Z :=
  match s with
  | EmptyString => acc
  | String c s' => digitsValue (10 * acc + (Z.of_nat (nat_of_ascii c) - 48)) s'
  end.

End JsString.

(** ** JavaScript dates *)

Module JsDate.

Definition msPerSecond : Z := 1000.
Definition msPerMinute : Z := 60000.
Definition msPerHour : Z := 3600000.
Definition msPerDay : Z := 86400000.

Definition Day (t : Z) : Z := t / msPerDay.
Definition HourFromTime (t : Z) : Z := (t / msPerHour) mod 24.
Definition MinFromTime (t : Z) : Z := (t / msPerMinute) mod 60.
Definition SecFromTime (t : Z) : Z := (t / msPerSecond) mod 60.
Definition msFromTime (t : Z) : Z := t mod msPerSecond.

Definition MakeTime (hour min sec ms : Z) : Z :=
  hour * msPerHour + min * msPerMinute + sec * msPerSecond + ms.

Definition MakeDate (day time : Z) : Z := day * msPerDay + time.

(** A time value is [None] for [NaN] (an invalid date). *)
Definition TimeClip (t : Z) : option Z :=
  if Z.abs t <=? 8640000000000000 then Some t else None.

Record DateFields := {
  year : Z;
  month : Z;
  date : Z;
  hours : Z;
  minutes : Z;
  seconds : Z
}.

(** Year, month (1 to 12) and day of the month of a day number counted
    from 1 January 1970, in the proleptic Gregorian calendar. *)
Definition civilFromDays (days : Z) : Z * Z * Z :=
  let z := days + 719468 in
  let era := z / 146097 in
  let doe := z - era * 146097 in
  let yoe := (doe - doe / 1460 + doe / 36524 - doe / 146096) / 365 in
  let doy := doe - (365 * yoe + yoe / 4 - yoe / 100) in
  let mp := (5 * doy + 2) / 153 in
  let d := doy - (153 * mp + 2) / 5 + 1 in
  let m := if mp <? 10 then mp + 3 else mp - 9 in
  let y := yoe + era * 400 + (if m <=? 2 then 1 else 0) in
  (y, m, d).

Definition daysFromCivil (y m d : Z) : Z :=
  let y' := if m <=? 2 then y - 1 else y in
  let era := y' / 400 in
  let yoe := y' - era * 400 in
  let doy := (153 * (if 2 <? m then m - 3 else m + 9) + 2) / 5 + d - 1 in
  let doe := yoe * 365 + yoe / 4 - yoe / 100 + doy in
  era * 146097 + doe - 719468.

Definition fieldsOfTime (t : Z) : DateFields :=
  let '(y, m, d) := civilFromDays (Day t) in
  {| year := y; month := m; date := d;
     hours := HourFromTime t; minutes := MinFromTime t; seconds := SecFromTime t |}.

(** What the service needs of the JavaScript runtime it runs on: the
    system time zone (its offset from UTC in milliseconds, a zone
    without daylight saving), the implementation-defined [Date.parse] of
    a string that is not in the ISO format, and the locale's rendering
    of a date with its time and of a date alone. *)
Record Runtime := {
  localTZA : Z;
  dateParse : string -> option Z;
  localeDateTime : DateFields -> string;
  localeDate : DateFields -> string
}.

(** [new Date(value)] on a number. *)
Definition ofNumber (value : float) : option Z :=
  match JsNumber.truncate value with
  | Some t => TimeClip t
  | None => None
  end.

(** [new Date(value)] on a string, or on [undefined] (an invalid date). *)
Definition ofString (rt : Runtime) (value : option string) : option Z :=
  match value with
  | Some s => dateParse rt s
  | None => None
  end.

(** Local time and back, for a system zone whose offset from UTC is the
    same at every instant; a zone with daylight saving, whose offset
    depends on the instant, is outside what a [Runtime] describes. *)
Definition LocalTime (rt : Runtime) (t : Z) : Z := t + localTZA rt.
Definition UTC (rt : Runtime) (t : Z) : Z := t - localTZA rt.

(** [date.getHours()]: the hour in the system time zone; [NaN] on an
    invalid date. *)
Definition getHours (rt : Runtime) (d : option Z) : option Z :=
  match d with
  | Some t => Some (HourFromTime (LocalTime rt t))
  | None => None
  end.

(** [date.setHours(hour)]: the date after the call. *)
Definition setHours (rt : Runtime) (d : option Z) (hour : option Z) : option Z :=
  match d, hour with
  | Some tv, Some h =>
      let t := LocalTime rt tv in
      TimeClip (UTC rt (MakeDate (Day t)
                         (MakeTime h (MinFromTime t) (SecFromTime t) (msFromTime t))))
  | _, _ => None
  end.

Definition toLocaleString (rt : Runtime) (d : option Z) : string :=
  match d with
  | Some t => localeDateTime rt (fieldsOfTime (LocalTime rt t))
  | None => "Invalid Date"
  end.

Definition toLocaleDateString (rt : Runtime) (d : option Z) : string :=
  match d with
  | Some t => localeDate rt (fieldsOfTime (LocalTime rt t))
  | None => "Invalid Date"
  end.

(** *** A runtime with the [en-US] locale

    [M/D/YYYY, h:mm:ss AM] for a date with its time, [M/D/YYYY] for a
    date; [Date.parse] reads the provider's [YYYY-MM-DD HH:MM:SS] as a
    local time, and in this instance any other string is an invalid
    date. *)

Definition twoDigits (n : Z) : string :=
  (if n <? 10 then "0" else "") +:+ JsNumber.decimalDigits n.

Definition enUSDate (f : DateFields) : string :=
  JsNumber.decimalDigits (month f) +:+ "/" +:+ JsNumber.decimalDigits (date f)
  +:+ "/" +:+ JsNumber.decimalDigits (year f).

Definition enUSDateTime (f : DateFields) : string :=
  let h12 := if hours f mod 12 =? 0 then 12 else hours f mod 12 in
  enUSDate f +:+ ", " +:+ JsNumber.decimalDigits h12 +:+ ":" +:+ twoDigits (minutes f)
  +:+ ":" +:+ twoDigits (seconds f) +:+ (if hours f <? 12 then " AM" else " PM").

Definition numberAt (start len : nat) (s : string) : option Z :=
  let part := String.substring start len s in
  if (String.length part =? len)%nat && JsString.allDigits part
  then Some (JsString.digitsValue 0 part)
  else None.

Definition charAt (i : nat) (c : ascii) (s : string) : bool :=
  match String.get i s with
  | Some d => Ascii.eqb c d
  | None => false
  end.

Definition parseProviderTime (tza : Z) (s : string) : option Z :=
  match numberAt 0 4 s, numberAt 5 2 s, numberAt 8 2 s,
        numberAt 11 2 s, numberAt 14 2 s, numberAt 17 2 s with
  | Some y, Some m, Some d, Some hh, Some mm, Some ss =>
      if (String.length s =? 19)%nat
         && charAt 4 "-" s && charAt 7 "-" s && charAt 10 " " s
         && charAt 13 ":" s && charAt 16 ":" s
         && (1 <=? m) && (m <=? 12) && (1 <=? d) && (d <=? 31)
         && (hh <? 24) && (mm <? 60) && (ss <? 60)
      then TimeClip (MakeDate (daysFromCivil y m d) (MakeTime hh mm ss 0) - tza)
      else None
  | _, _, _, _, _, _ => None
  end.

Definition enUSRuntime (tza : Z) : Runtime :=
  {| localTZA := tza;
     dateParse := parseProviderTime tza;
     localeDateTime := enUSDateTime;
     localeDate := enUSDate |}.

End JsDate.

(** ** Exceptions and results *)

Inductive Exception :=
| HttpException (message : string) (status : Z)
| AxiosError (message : string)
| TypeError (message : string).

Definition NOT_FOUND : Z := 404.
Definition INTERNAL_SERVER_ERROR : Z := 500.

Inductive Result (A : Type) :=
| Ok (a : A)
| Err (e : Exception).

Arguments Ok {A} a.
Arguments Err {A} e.

Definition bindResult {A B} (r : Result A) (k : A -> Result B) : Result B :=
  match r with
  | Ok a => k a
  | Err e => Err e
  end.

(** ** The provider's payloads *)

Record WeatherCondition := {
  wc_main : string;
  wc_description : string;
  wc_icon : string
}.

Record MainBlock := {
  temp : float;
  feels_like : float;
  humidity : float;
  temp_min : float;
  temp_max : float
}.

Record WindBlock := { speed : float }.

(** A [rain] or [snow] object; [oneHour] is its ["1h"] property. *)
Record Precipitation := { oneHour : option float }.

Record SysBlock := { sunrise : float; sunset : float }.

(** The object the current-weather endpoint returns, and an element of
    the forecast endpoint's [list]; a property that can be missing is an
    [option]. *)
Record RawData := {
  weather : list WeatherCondition;
  main : MainBlock;
  wind : WindBlock;
  rain : option Precipitation;
  snow : option Precipitation;
  sys : option SysBlock;
  dt_txt : option string
}.

Record GeoEntry := { lat : float; lon : float }.

(** [response.data] of an outbound request. *)
Inductive ResponseData :=
| GeoData (data : list GeoEntry)
| WeatherData (data : RawData)
| ForecastData (list : list RawData).

(** ** The formatted reports *)

Module Current.
Record Report := {
  weatherStatus : string;
  detailWeatherStatus : string;
  currentTemp : string;
  apparentTemp : string;
  currentHumi : string;
  minTemp : string;
  maxTemp : string;
  windSpeed : string;
  rainfall : string;
  snowfall : string;
  sunriseTime : string;
  sunsetTime : string;
  icon : string
}.
End Current.

Module Forecast.
Record Entry := {
  forecastTime : string;
  weatherStatus : string;
  detailWeatherStatus : string;
  currentTemp : string;
  apparentTemp : string;
  currentHumi : string;
  minTemp : string;
  maxTemp : string;
  windSpeed : string;
  rainfall : string;
  snowfall : string;
  icon : string
}.
End Forecast.

(** ** Ordinary JavaScript objects used as maps *)

Module JsObject.

(** Own properties in the order they were created. *)
Definition t (V : Type) : Type := list (string * V).

(** Property names every object inherits from [Object.prototype]. *)
Definition prototypeNames : list string :=
  ["constructor"; "toString"; "toLocaleString"; "valueOf"; "hasOwnProperty";
   "isPrototypeOf"; "propertyIsEnumerable"; "__proto__"; "__defineGetter__";
   "__defineSetter__"; "__lookupGetter__"; "__lookupSetter__"]%string.

Definition isPrototypeName (k : string) : bool :=
  existsb (String.eqb k) prototypeNames.

(** An array index: the canonical decimal string of an integer below
    [2^32 - 1]. *)
Definition arrayIndex (k : string) : option Z :=
  match k with
  | EmptyString => None
  | String c rest =>
      if JsString.allDigits k
         && (negb (Ascii.eqb c "0") || String.eqb rest "")
         && (JsString.digitsValue 0 k <? 4294967295)
      then Some (JsString.digitsValue 0 k)
      else None
  end.

Fixpoint getOwn {V} (o : t V) (k : string) : option V :=
  match o with
  | [] => None
  | (k', v) :: o' => if String.eqb k k' then Some v else getOwn o' k
  end.

Inductive Slot (V : Type) :=
| Own (v : V)
| Inherited
| Absent.

Arguments Own {V} v.
Arguments Inherited {V}.
Arguments Absent {V}.

(** [o[k]]: an own property, else one inherited from [Object.prototype],
    else [undefined]. *)
Definition get {V} (o : t V) (k : string) : Slot V :=
  match getOwn o k with
  | Some v => Own v
  | None => if isPrototypeName k then Inherited else Absent
  end.

(** [o[k] = v] where [k] is an own property or is not inherited: the
    property keeps its place, a new one goes last. *)
Fixpoint set {V} (o : t V) (k : string) (v : V) : t V :=
  match o with
  | [] => [(k, v)]
  | (k', v') :: o' =>
      if String.eqb k k' then (k', v) :: o' else (k', v') :: set o' k v
  end.

Fixpoint insertIndex (i : Z) (k : string) (l : list (Z * string)) : list (Z * string) :=
  match l with
  | [] => [(i, k)]
  | (j, k') :: l' => if i <? j then (i, k) :: l else (j, k') :: insertIndex i k l'
  end.

Fixpoint indexKeys {V} (o : t V) : list (Z * string) :=
  match o with
  | [] => []
  | (k, _) :: o' =>
      match arrayIndex k with
      | Some i => insertIndex i k (indexKeys o')
      | None => indexKeys o'
      end
  end.

Fixpoint stringKeys {V} (o : t V) : list string :=
  match o with
  | [] => []
  | (k, _) :: o' =>
      match arrayIndex k with
      | Some _ => stringKeys o'
      | None => k :: stringKeys o'
      end
  end.

(** The order in which [Object.keys], [for-in] and [JSON.stringify] see
    the properties: array indices ascending, then the other names in
    creation order. *)
Definition ownKeys {V} (o : t V) : list string :=
  map snd (indexKeys o) ++ stringKeys o.

End JsObject.

(** ** Values, cache and effects *)

Definition GroupedForecast : Type := JsObject.t (list Forecast.Entry).

(** What a cache entry can hold and what the two operations return
    ([any] in the source). *)
Inductive JsValue :=
| JUndefined
| JNull
| JBoolean (b : bool)
| JNumber (x : float)
| JString (s : string)
| JReport (r : Current.Report)
| JForecast (g : GroupedForecast).

(** ToBoolean: what [if (cachedWeather)] tests.  Objects are truthy,
    the empty object included. *)
Definition truthy (v : JsValue) : bool :=
  match v with
  | JUndefined | JNull => false
  | JBoolean b => b
  | JNumber x => JsNumber.truthy x
  | JString s => negb (String.eqb s "")
  | JReport _ | JForecast _ => true
  end.

Record CacheEntry := { value : JsValue; expiry : Z }.

(** Modelled from the spec: the cache store behind [CACHE_MANAGER] (the
    cache-manager package), a key-value store with [get(key)] and
    [set(key, value, ttl)]; an entry expires at its store time plus the
    time-to-live, and [get] answers [undefined] for a key that is absent
    or expired. *)
Definition cacheLookup (now : Z) (c : gmap string CacheEntry) (key : string) : JsValue :=
  match c !! key with
  | Some e => if now <? expiry e then value e else JUndefined
  | None => JUndefined
  end.

Definition cacheStore (now : Z) (c : gmap string CacheEntry)
    (key : string) (v : JsValue) (ttl : Z) : gmap string CacheEntry :=
  <[key := {| value := v; expiry := now + ttl |}]> c.

(** An entry is present under the key and has not expired. *)
Definition present (now : Z) (c : gmap string CacheEntry) (key : string) (v : JsValue) : Prop :=
  exists e, c !! key = Some e /\ now < expiry e /\ value e = v.

(** The outbound calls and console output of a run, in order:
    [Geocode] is the request [getCoordinatesByCity] makes, [Fetch] the
    one [fetchWeatherData] makes, each with its URL. *)
Inductive Effect :=
| Geocode (url : string)
| Fetch (url : string)
| ConsoleError (e : Exception).

(** The world of one call: the time at which it runs and what the
    upstream answers to a GET of a URL (a rejected request is [Err]). *)
Record World := {
  now : Z;
  httpGet : string -> Result ResponseData
}.

Record State := {
  cache : gmap string CacheEntry;
  effects : list Effect
}.

(** The service's computations: they read the world, change the state,
    and return or throw.  A throw keeps the state reached so far. *)
Definition M (A : Type) : Type := World -> State -> Result A * State.

Definition ret {A} (a : A) : M A := fun _ s => (Ok a, s).

Definition throw {A} (e : Exception) : M A := fun _ s => (Err e, s).

Definition bind {A B} (m : M A) (k : A -> M B) : M B :=
  fun w s =>
    match m w s with
    | (Ok a, s') => k a w s'
    | (Err e, s') => (Err e, s')
    end.

Definition tryCatch {A} (m : M A) (handler : Exception -> M A) : M A :=
  fun w s =>
    match m w s with
    | (Ok a, s') => (Ok a, s')
    | (Err e, s') => handler e w s'
    end.

Definition liftResult {A} (r : Result A) : M A := fun _ s => (r, s).

Notation "x <- m ;; k" := (bind m (fun x => k))
  (at level 100, m at next level, right associativity).
Notation "m ;;; k" := (bind m (fun _ => k))
  (at level 100, right associativity).

Definition cacheManager_get (key : string) : M JsValue :=
  fun w s => (Ok (cacheLookup (now w) (cache s) key), s).

Definition cacheManager_set (key : string) (v : JsValue) (ttl : Z) : M unit :=
  fun w s => (Ok tt, {| cache := cacheStore (now w) (cache s) key v ttl;
                        effects := effects s |}).

Definition httpService_get (site : string -> Effect) (url : string) : M ResponseData :=
  fun w s => (httpGet w url, {| cache := cache s; effects := effects s ++ [site url] |}).

Definition console_error (e : Exception) : M unit :=
  fun _ s => (Ok tt, {| cache := cache s; effects := effects s ++ [ConsoleError e] |}).

(** ** The service *)

Definition apiUrl : string := "http://api.openweathermap.org/data/2.5".

Definition cacheTTL : Z := 300.

Section WeatherService.

Variable rt : JsDate.Runtime.
Variable apiKey : string.

Definition formatUnixTime (timestamp : float) : string :=
  let date := JsDate.ofNumber (PrimFloat.mul timestamp 1000) in
  let date := JsDate.setHours rt date
                (option_map (fun h => h + 9) (JsDate.getHours rt date)) in
  JsDate.toLocaleString rt date.

(** [rain["1h"] || 0], with [rain = {}] when the payload has none. *)
Definition oneHourOrZero (p : option Precipitation) : float :=
  match p with
  | Some {| oneHour := Some v |} => if JsNumber.truthy v then v else 0%float
  | _ => 0%float
  end.

Definition formatWeatherData (data : ResponseData) : Result Current.Report :=
  match data with
  | WeatherData d =>
      match weather d, sys d with
      | [], _ => Err (TypeError "Cannot read properties of undefined (reading 'main')")
      | _ :: _, None =>
          Err (TypeError "Cannot read properties of undefined (reading 'sunrise')")
      | w0 :: _, Some s =>
          Ok {| Current.weatherStatus := wc_main w0;
                Current.detailWeatherStatus := wc_description w0;
                Current.currentTemp := JsNumber.toFixed 2 (temp (main d)) +:+ "℃";
                Current.apparentTemp := JsNumber.toFixed 2 (feels_like (main d)) +:+ "℃";
                Current.currentHumi := JsNumber.toString (humidity (main d)) +:+ "%";
                Current.minTemp := JsNumber.toFixed 2 (temp_min (main d)) +:+ "℃";
                Current.maxTemp := JsNumber.toFixed 2 (temp_max (main d)) +:+ "℃";
                Current.windSpeed := JsNumber.toFixed 2 (speed (wind d)) +:+ "m/s";
                Current.rainfall := JsNumber.toString (oneHourOrZero (rain d)) +:+ "mm/h";
                Current.snowfall := JsNumber.toString (oneHourOrZero (snow d)) +:+ "mm/h";
                Current.sunriseTime := formatUnixTime (sunrise s);
                Current.sunsetTime := formatUnixTime (sunset s);
                Current.icon := wc_icon w0 |}
      end
  | _ => Err (TypeError "Cannot read properties of undefined (reading '0')")
  end.

Definition formatForecastData (item : RawData) : Result Forecast.Entry :=
  match weather item with
  | [] => Err (TypeError "Cannot read properties of undefined (reading 'main')")
  | w0 :: _ =>
      Ok {| Forecast.forecastTime :=
              JsDate.toLocaleString rt (JsDate.ofString rt (dt_txt item));
            Forecast.weatherStatus := wc_main w0;
            Forecast.detailWeatherStatus := wc_description w0;
            Forecast.currentTemp := JsNumber.toFixed 2 (temp (main item)) +:+ "℃";
            Forecast.apparentTemp := JsNumber.toFixed 2 (feels_like (main item)) +:+ "℃";
            Forecast.currentHumi := JsNumber.toString (humidity (main item)) +:+ "%";
            Forecast.minTemp := JsNumber.toFixed 2 (temp_min (main item)) +:+ "℃";
            Forecast.maxTemp := JsNumber.toFixed 2 (temp_max (main item)) +:+ "℃";
            Forecast.windSpeed := JsNumber.toFixed 2 (speed (wind item)) +:+ "m/s";
            Forecast.rainfall := JsNumber.toString (oneHourOrZero (rain item)) +:+ "mm/h";
            Forecast.snowfall := JsNumber.toString (oneHourOrZero (snow item)) +:+ "mm/h";
            Forecast.icon := wc_icon w0 |}
  end.

(** [new Date(curr.dt_txt).toLocaleDateString()]. *)
Definition forecastDateOf (curr : RawData) : string :=
  JsDate.toLocaleDateString rt (JsDate.ofString rt (dt_txt curr)).

(** The reducer of [groupForecastByDate]: [acc[forecastDate]] is created
    as an empty array when it is falsy, then the formatted entry is
    pushed onto it.  An inherited property is truthy and has no [push]. *)
Definition groupStep (acc : GroupedForecast) (curr : RawData) : Result GroupedForecast :=
  let forecastDate := forecastDateOf curr in
  match JsObject.get acc forecastDate with
  | JsObject.Absent =>
      bindResult (formatForecastData curr) (fun entry =>
      Ok (JsObject.set acc forecastDate [entry]))
  | JsObject.Own entries =>
      bindResult (formatForecastData curr) (fun entry =>
      Ok (JsObject.set acc forecastDate (entries ++ [entry])))
  | JsObject.Inherited =>
      bindResult (formatForecastData curr) (fun _ =>
      Err (TypeError "acc[forecastDate].push is not a function"))
  end.

Fixpoint reduce (acc : GroupedForecast) (l : list RawData) : Result GroupedForecast :=
  match l with
  | [] => Ok acc
  | curr :: l' => bindResult (groupStep acc curr) (fun acc' => reduce acc' l')
  end.

Definition groupForecastByDate (forecastData : list RawData) : Result GroupedForecast :=
  reduce [] forecastData.

(** [response.data.list]. *)
Definition responseList (data : ResponseData) : Result (list RawData) :=
  match data with
  | ForecastData l => Ok l
  | _ => Err (TypeError "Cannot read properties of undefined (reading 'reduce')")
  end.

Definition geocodeUrl (city : string) : string :=
  "http://api.openweathermap.org/geo/1.0/direct?q="
  +:+ JsString.encodeURIComponent city +:+ "&limit=1&appid=" +:+ apiKey.

Definition getCoordinatesByCity (city : string) : M GeoEntry :=
  data <- httpService_get Geocode (geocodeUrl city) ;;
  match data with
  | GeoData [] => throw (HttpException "도시 정보를 찾을 수 없습니다." NOT_FOUND)
  | GeoData (first :: _) => ret {| lat := lat first; lon := lon first |}
  | _ => throw (TypeError
           "Cannot destructure property 'lat' of 'data[0]' as it is undefined.")
  end.

Definition fetchWeatherData (url : string) : M ResponseData :=
  tryCatch (httpService_get Fetch url)
    (fun error =>
       console_error error ;;;
       throw (HttpException "City not found" NOT_FOUND)).

Definition endpointUrl (endpoint : string) (c : GeoEntry) : string :=
  apiUrl +:+ endpoint +:+ "?lat=" +:+ JsNumber.toString (lat c)
  +:+ "&lon=" +:+ JsNumber.toString (lon c)
  +:+ "&appid=" +:+ apiKey +:+ "&units=metric&lang=kr".

Definition getWeatherByCity (city : string) : M JsValue :=
  let cacheKey := "weather_" +:+ city in
  cachedWeather <- cacheManager_get cacheKey ;;
  if truthy cachedWeather then ret cachedWeather
  else
    c <- getCoordinatesByCity city ;;
    let url := endpointUrl "/weather" c in
    tryCatch
      (response <- fetchWeatherData url ;;
       weatherData <- liftResult (formatWeatherData response) ;;
       cacheManager_set cacheKey (JReport weatherData) cacheTTL ;;;
       ret (JReport weatherData))
      (fun error =>
         throw (HttpException "Failed to fetch weather data" INTERNAL_SERVER_ERROR)).

Definition getFiveDayForecast (city : string) : M JsValue :=
  let cacheKey := "forecast_" +:+ city in
  cachedForecast <- cacheManager_get cacheKey ;;
  if truthy cachedForecast then ret cachedForecast
  else
    c <- getCoordinatesByCity city ;;
    let url := endpointUrl "/forecast" c in
    tryCatch
      (response <- fetchWeatherData url ;;
       groupedForecast <- liftResult
         (bindResult (responseList response) groupForecastByDate) ;;
       cacheManager_set cacheKey (JForecast groupedForecast) cacheTTL ;;;
       ret (JForecast groupedForecast))
      (fun error =>
         throw (HttpException "Failed to fetch forecast data" INTERNAL_SERVER_ERROR)).

(** The two public operations, by name. *)
Inductive Operation :=
| CurrentWeather
| FiveDayForecast.

Definition perform (op : Operation) : string -> M JsValue :=
  match op with
  | CurrentWeather => getWeatherByCity
  | FiveDayForecast => getFiveDayForecast
  end.

Definition cacheKeyOf (op : Operation) (city : string) : string :=
  match op with
  | CurrentWeather => "weather_" +:+ city
  | FiveDayForecast => "forecast_" +:+ city
  end.

Definition endpointOf (op : Operation) : string :=
  match op with
  | CurrentWeather => "/weather"
  | FiveDayForecast => "/forecast"
  end.

Definition failureOf (op : Operation) : Exception :=
  match op with
  | CurrentWeather =>
      HttpException "Failed to fetch weather data" INTERNAL_SERVER_ERROR
  | FiveDayForecast =>
      HttpException "Failed to fetch forecast data" INTERNAL_SERVER_ERROR
  end.

(** What the compute path makes of the fetched payload. *)
Definition computeOf (op : Operation) (response : ResponseData) : Result JsValue :=
  match op with
  | CurrentWeather =>
      bindResult (formatWeatherData response) (fun r => Ok (JReport r))
  | FiveDayForecast =>
      bindResult (bindResult (responseList response) groupForecastByDate)
        (fun g => Ok (JForecast g))
  end.

(** The cache states the service can be in: it starts empty and changes
    only through calls of the two operations, at any time and against
    any upstream. *)
Inductive reachable : gmap string CacheEntry -> Prop :=
| reachable_empty : reachable ∅
| reachable_call op city w s :
    reachable (cache s) ->
    reachable (cache (snd (perform op city w s))).

End WeatherService.

(** ** Vocabulary of the properties *)

Definition initial (c : gmap string CacheEntry) : State :=
  {| cache := c; effects := [] |}.

Definition isGeocode (e : Effect) : bool :=
  match e with Geocode _ => true | _ => false end.

Definition isFetch (e : Effect) : bool :=
  match e with Fetch _ => true | _ => false end.

Definition geocodeCalls (s : State) : nat :=
  List.length (List.filter isGeocode (effects s)).

Definition fetchCalls (s : State) : nat :=
  List.length (List.filter isFetch (effects s)).


(** The entry under the key has not expired at time [t]. *)
Definition liveAt (c : gmap string CacheEntry) (key : string) (t : Z) : Prop :=
  exists e, c !! key = Some e /\ t < expiry e.

Definition isReport (v : JsValue) : Prop := exists r, v = JReport r.

Definition isGroupedForecast (v : JsValue) : Prop := exists g, v = JForecast g.

(** The kind of value an operation computes. *)
Definition kindOf (op : Operation) (v : JsValue) : Prop :=
  match op with
  | CurrentWeather => isReport v
  | FiveDayForecast => isGroupedForecast v
  end.

(** Digits, a point and two digits, to the end of the string. *)
Fixpoint digitsPointTwo (s : string) : bool :=
  match s with
  | EmptyString => false
  | String c s' =>
      match s' with
      | String a (String b EmptyString) =>
          (Ascii.eqb c "." && JsString.isDigit a && JsString.isDigit b)
          || (JsString.isDigit c && digitsPointTwo s')
      | _ => JsString.isDigit c && digitsPointTwo s'
      end
  end.

(** A decimal numeral with exactly two decimals: an optional minus sign,
    at least one digit, a point, two digits. *)
Definition isTwoDecimal (s : string) : bool :=
  match s with
  | String "-" (String c s') => JsString.isDigit c && digitsPointTwo s'
  | String c s' => JsString.isDigit c && digitsPointTwo s'
  | EmptyString => false
  end.

(** [stripSuffix unit s] is what precedes [unit] at the end of [s]. *)
Fixpoint stripSuffix (unit s : string) : option string :=
  if String.eqb s unit then Some EmptyString
  else match s with
       | EmptyString => None
       | String c s' => option_map (String c) (stripSuffix unit s')
       end.

(** A two-decimal numeral followed by the unit. *)
Definition twoDecimalsWithUnit (unit s : string) : bool :=
  match stripSuffix unit s with
  | Some body => isTwoDecimal body
  | None => false
  end.

(** A finite number of magnitude below [10^21], the range in which
    [toFixed] writes plain digits. *)
Definition fixedRange (x : float) : bool :=
  match Prim2SF x with
  | S754_zero _ => true
  | S754_finite _ m e =>
      negb (Qle_bool (JsNumber.pow10Q 21) (JsNumber.realValue m e))
  | _ => false
  end.

(** The value filed under a name once the entries of [pairs] have been
    added to what the accumulator held. *)
Definition filed {A} (before : option (list A)) (added : list A) : option (list A) :=
  match before, added with
  | None, [] => None
  | None, _ :: _ => Some added
  | Some v, _ => Some (v ++ added)
  end.

(** The integer a decimal numeral denotes once its point is left out:
    for a numeral with two decimals, its value in hundredths. *)
Fixpoint readHundredths (acc : Z) (s : string) : Z :=
  match s with
  | EmptyString => acc
  | String c s' =>
      if Ascii.eqb c "." then readHundredths acc s'
      else readHundredths (10 * acc + (Z.of_nat (nat_of_ascii c) - 48)) s'
  end.

Definition hundredths (s : string) : Z :=
  match s with
  | String "-" s' => - readHundredths 0 s'
  | _ => readHundredths 0 s
  end.

(** The real number a finite binary64 value stands for. *)
Definition floatValue (x : float) : Q :=
  match Prim2SF x with
  | S754_finite s m e =>
      if s then Qopp (JsNumber.realValue m e) else JsNumber.realValue m e
  | _ => 0%Q
  end.

(** A field made of [x.toFixed(2)] and a unit: it is that string, and
    for [x] in the plain range it is a two-decimal numeral followed by
    the unit whose value is within half a hundredth of [x]. *)
Definition fixedField (x : float) (unit field : string) : Prop :=
  field = (JsNumber.toFixed 2 x +:+ unit)%string
  /\ (fixedRange x = true ->
      twoDecimalsWithUnit unit field = true
      /\ exists body,
           stripSuffix unit field = Some body
           /\ Qle (Qabs (Qminus (Qmake (hundredths body) 100) (floatValue x)))
                  (Qmake 1 200)).

(** A rate field: the one-hour amount of the [rain] or [snow] property
    as a template literal prints it, not rounded, when there is a truthy
    one; [0mm/h] when the property, its ["1h"] or a truthy ["1h"] is
    missing. *)
Definition rateField (p : option Precipitation) (field : string) : Prop :=
  match p with
  | Some {| oneHour := Some v |} =>
      if JsNumber.truthy v then field = (JsNumber.toString v +:+ "mm/h")%string
      else field = "0mm/h"%string
  | _ => field = "0mm/h"%string
  end.

(** What the formatters give the seven temperature, speed and rate
    fields of a payload [d]. *)
Definition fieldsFormatted (d : RawData)
    (currentTemp apparentTemp minTemp maxTemp windSpeed rainfall snowfall : string) : Prop :=
  fixedField (temp (main d)) "℃" currentTemp
  /\ fixedField (feels_like (main d)) "℃" apparentTemp
  /\ fixedField (temp_min (main d)) "℃" minTemp
  /\ fixedField (temp_max (main d)) "℃" maxTemp
  /\ fixedField (speed (wind d)) "m/s" windSpeed
  /\ rateField (rain d) rainfall
  /\ rateField (snow d) snowfall.

(** The distinct elements of a list in the order of their first
    occurrence; [seen] holds those already met. *)
Fixpoint dedup (seen : list string) (l : list string) : list string :=
  match l with
  | [] => []
  | k :: l' =>
      if existsb (String.eqb k) seen then dedup seen l'
      else k :: dedup (seen ++ [k]) l'
  end.

Definition firstOccurrences (l : list string) : list string := dedup [] l.

(** A property name that is neither an array index nor inherited from
    [Object.prototype]; every locale's date rendering is one. *)
Definition ordinaryName (k : string) : bool :=
  match JsObject.arrayIndex k with
  | Some _ => false
  | None => negb (JsObject.isPrototypeName k)
  end.

(** The runtime's locale renders every date as an ordinary name. *)
Definition datesOrdinary (rt : JsDate.Runtime) : Prop :=
  forall f, ordinaryName (JsDate.localeDate rt f) = true.

Definition hasCondition (d : RawData) : bool :=
  match weather d with [] => false | _ :: _ => true end.

(** The entries of [pairs] filed under the date [k], in order. *)
Definition entriesOn {A} (k : string) (pairs : list (string * A)) : list A :=
  map snd (List.filter (fun p => String.eqb (fst p) k) pairs).

(** ** Scenarios

    Concrete payloads, upstreams and caches on which the properties are
    exercised. *)

Module Scenario.

Definition utc : JsDate.Runtime := JsDate.enUSRuntime 0.

(** A host whose system time zone is Korea Standard Time, UTC+9. *)
Definition kst : JsDate.Runtime := JsDate.enUSRuntime (9 * JsDate.msPerHour).

Definition apiKey : string := "KEY".

Definition clear : WeatherCondition :=
  {| wc_main := "Clear"; wc_description := "clear sky"; wc_icon := "01d" |}.

Definition mild : MainBlock :=
  {| temp := 21.456; feels_like := 20.1; humidity := 60;
     temp_min := 19; temp_max := 23.999 |}.

(** Current weather in Seoul: no [rain] and no [snow] object. *)
Definition seoulWeather : RawData :=
  {| weather := [clear]; main := mild; wind := {| speed := 3.6 |};
     rain := None; snow := None;
     sys := Some {| sunrise := 1714510800; sunset := 1714560000 |};
     dt_txt := None |}.

(** The same payload with an empty weather-condition list. *)
Definition noCondition : RawData :=
  {| weather := []; main := mild; wind := {| speed := 3.6 |};
     rain := None; snow := None;
     sys := Some {| sunrise := 1714510800; sunset := 1714560000 |};
     dt_txt := None |}.

(** A forecast slot with half a millimetre of rain in the hour. *)
Definition rainySeoul : RawData :=
  {| weather := [clear]; main := mild; wind := {| speed := 3.6 |};
     rain := Some {| oneHour := Some 0.5%float |}; snow := None;
     sys := None; dt_txt := Some "2024-05-01 09:00:00" |}.

Definition forecastAt (when : string) : RawData :=
  {| weather := [clear]; main := mild; wind := {| speed := 3.6 |};
     rain := None; snow := None; sys := None; dt_txt := Some when |}.

(** A forecast slot with an empty weather-condition list. *)
Definition slotWithoutCondition : RawData :=
  {| weather := []; main := mild; wind := {| speed := 3.6 |};
     rain := None; snow := None; sys := None;
     dt_txt := Some "2024-05-02 03:00:00" |}.

Definition threeSlots : list RawData :=
  [forecastAt "2024-05-01 09:00:00"; forecastAt "2024-05-01 12:00:00";
   forecastAt "2024-05-02 00:00:00"].

Definition seoulCoordinates : GeoEntry := {| lat := 37.5665; lon := 126.978 |}.

Definition isGeocodeUrl (url : string) : bool :=
  String.prefix "http://api.openweathermap.org/geo/" url.

Definition isForecastUrl (url : string) : bool :=
  String.prefix "http://api.openweathermap.org/data/2.5/forecast" url.

(** An upstream that knows every city and answers every request. *)
Definition healthy (t : Z) : World :=
  {| now := t;
     httpGet := fun url =>
       if isGeocodeUrl url then Ok (GeoData [seoulCoordinates])
       else if isForecastUrl url then Ok (ForecastData threeSlots)
       else Ok (WeatherData seoulWeather) |}.

(** An upstream whose geocoder knows no city. *)
Definition unknownCity (t : Z) : World :=
  {| now := t;
     httpGet := fun url =>
       if isGeocodeUrl url then Ok (GeoData [])
       else Err (AxiosError "Request failed with status code 400") |}.

(** An upstream whose weather and forecast endpoints are down. *)
Definition providerDown (t : Z) : World :=
  {| now := t;
     httpGet := fun url =>
       if isGeocodeUrl url then Ok (GeoData [seoulCoordinates])
       else Err (AxiosError "Request failed with status code 503") |}.

(** An upstream whose current-weather endpoint answers with an empty
    weather-condition list. *)
Definition conditionless (t : Z) : World :=
  {| now := t;
     httpGet := fun url =>
       if isGeocodeUrl url then Ok (GeoData [seoulCoordinates])
       else Ok (WeatherData noCondition) |}.

(** A cache holding an empty grouped forecast, [{}], unexpired, under
    Seoul's forecast key. *)
Definition emptyForecastCache : gmap string CacheEntry :=
  {[ "forecast_Seoul" := {| value := JForecast []; expiry := 300 |} ]}.

(** A first call for Seoul, at time 0 on an empty cache. *)
Definition seoulFirstCall : Result JsValue * State :=
  getWeatherByCity utc apiKey "Seoul" (healthy 0) (initial ∅).

(** Two calls, one time unit apart, for a city the geocoder does not
    know. *)
Definition atlantisFirstCall : Result JsValue * State :=
  getWeatherByCity utc apiKey "Atlantis" (unknownCity 0) (initial ∅).

Definition atlantisSecondCall : Result JsValue * State :=
  getWeatherByCity utc apiKey "Atlantis" (unknownCity 1) (snd atlantisFirstCall).

End Scenario.

(** ** Vocabulary of the further properties *)

(** The value of an upper-case hexadecimal digit. *)
Definition hexValue (c : ascii) : option nat :=
  let n := nat_of_ascii c in
  if JsString.isDigit c then Some (n - 48)%nat
  else if JsString.inRange 65 70 c then Some (n - 55)%nat
  else None.

(** Reading percent escapes back: [%XX] becomes the byte [XX], every
    other character stands for itself. *)
Fixpoint percentDecode (s : string) : string :=
  match s with
  | EmptyString => EmptyString
  | String c s' =>
      if Ascii.eqb c "%" then
        match s' with
        | String h (String l rest) =>
            match hexValue h, hexValue l with
            | Some a, Some b => String (ascii_of_nat (16 * a + b)) (percentDecode rest)
            | _, _ => String c (percentDecode s')
            end
        | _ => String c (percentDecode s')
        end
      else String c (percentDecode s')
  end.

(** A [rain] or [snow] property for which [x["1h"] || 0] is zero: no
    object, no ["1h"] in it, or a falsy ["1h"] (zero or [NaN]). *)
Definition noPrecipitation (p : option Precipitation) : bool :=
  match p with
  | Some {| oneHour := Some v |} => negb (JsNumber.truthy v)
  | _ => true
  end.

(** An item whose [dt_txt] is missing or is not read as a date by
    [new Date]. *)
Definition undated (rt : JsDate.Runtime) (item : RawData) : bool :=
  match JsDate.ofString rt (dt_txt item) with
  | Some _ => false
  | None => true
  end.

(** The runtime's locale renders no valid date as [Invalid Date]. *)
Definition datesNamed (rt : JsDate.Runtime) : Prop :=
  forall f, JsDate.localeDate rt f <> "Invalid Date"%string.

(** The locale's rendering of a date with its time starts with its
    rendering of the date. *)
Definition dateLeadsDateTime (rt : JsDate.Runtime) : Prop :=
  forall f, String.prefix (JsDate.localeDate rt f) (JsDate.localeDateTime rt f) = true.

(** ** Further scenarios *)

Module Cases.

(** A payload whose rain amount is [NaN] and whose snow amount is zero. *)
Definition dryAfterAll : RawData :=
  {| weather := [Scenario.clear]; main := Scenario.mild; wind := {| speed := 3.6 |};
     rain := Some {| oneHour := Some (0 / 0)%float |};
     snow := Some {| oneHour := Some 0%float |};
     sys := Some {| sunrise := 1714510800; sunset := 1714560000 |};
     dt_txt := None |}.

(** Four forecast slots, two of them with a time that cannot be read:
    the second has no [dt_txt], the third is not in the provider's
    format. *)
Definition mixedSlots : list RawData :=
  [ Scenario.forecastAt "2024-05-01 09:00:00";
    {| weather := [Scenario.clear]; main := Scenario.mild; wind := {| speed := 3.6 |};
       rain := None; snow := None; sys := None; dt_txt := None |};
    Scenario.forecastAt "tomorrow";
    Scenario.forecastAt "2024-05-02 00:00:00" ].

Definition brokenSlots : list RawData :=
  [Scenario.forecastAt "2024-05-01 09:00:00"; Scenario.slotWithoutCondition].

Definition busan : GeoEntry := {| lat := 35.1796; lon := 129.0756 |}.

(** An upstream whose geocoder returns two matches. *)
Definition twoMatches (t : Z) : World :=
  {| now := t;
     httpGet := fun url =>
       if Scenario.isGeocodeUrl url then Ok (GeoData [Scenario.seoulCoordinates; busan])
       else if Scenario.isForecastUrl url then Ok (ForecastData Scenario.threeSlots)
       else Ok (WeatherData Scenario.seoulWeather) |}.

(** An upstream whose forecast is empty. *)
Definition noForecast (t : Z) : World :=
  {| now := t;
     httpGet := fun url =>
       if Scenario.isGeocodeUrl url then Ok (GeoData [Scenario.seoulCoordinates])
       else Ok (ForecastData []) |}.

(** An upstream whose forecast has a slot without a weather condition. *)
Definition brokenForecast (t : Z) : World :=
  {| now := t;
     httpGet := fun url =>
       if Scenario.isGeocodeUrl url then Ok (GeoData [Scenario.seoulCoordinates])
       else Ok (ForecastData brokenSlots) |}.

End Cases.

(** * Properties *)

(** ** The runtime model on known values *)

Example toString_known_values :
  map JsNumber.toString
    [0; 60; 0.5; 0.1 + 0.2; 1e21; 123456789012345680000; 0.000001; 1e-7;
     5e-324; 1e23; -1.5; 37.5665]%float
  = ["0"; "60"; "0.5"; "0.30000000000000004"; "1e+21"; "123456789012345680000";
     "0.000001"; "1e-7"; "5e-324"; "1e+23"; "-1.5"; "37.5665"].
Proof. vm_compute. reflexivity. Qed.

Example toFixed_known_values :
  map (JsNumber.toFixed 2)
    [21.456; 1.005; 1.255; 8.345; 0.5; -0.001; 0; 1e21; 0 / 0]%float
  = ["21.46"; "1.00"; "1.25"; "8.35"; "0.50"; "-0.00"; "0.00"; "1e+21"; "NaN"].
Proof. vm_compute. reflexivity. Qed.

Example encodeURIComponent_seoul :
  JsString.encodeURIComponent "서울 Seoul" = "%EC%84%9C%EC%9A%B8%20Seoul".
Proof. reflexivity. Qed.

Example leap_day_2024 :
  JsDate.civilFromDays (JsDate.Day 1709251199000) = (2024, 2, 29)
  /\ JsDate.daysFromCivil 2024 2 29 = JsDate.Day 1709251199000
  /\ JsDate.toLocaleString (JsDate.enUSRuntime 0) (Some 1709251199000)
     = "2/29/2024, 11:59:59 PM".
Proof. repeat split; vm_compute; reflexivity. Qed.

Example provider_time_is_local :
  JsDate.toLocaleString (JsDate.enUSRuntime (9 * JsDate.msPerHour))
    (JsDate.parseProviderTime (9 * JsDate.msPerHour) "2024-05-01 12:00:00")
  = "5/1/2024, 12:00:00 PM".
Proof. vm_compute. reflexivity. Qed.

Example array_indices_come_first :
  JsObject.ownKeys
    (JsObject.set (JsObject.set (JsObject.set [] "b" 1) "10" 2) "2" 3)
  = ["2"; "10"; "b"]
  /\ JsObject.get (JsObject.set [] "b" 1) "toString" = JsObject.Inherited
  /\ JsObject.get (JsObject.set [] "b" 1) "c" = JsObject.Absent.
Proof. repeat split; reflexivity. Qed.

(** ** One call, step by step *)

Section CallFacts.

Variable rt : JsDate.Runtime.
Variable apiKey : string.

Lemma perform_hit op city w s :
  truthy (cacheLookup (now w) (cache s) (cacheKeyOf op city)) = true ->
  perform rt apiKey op city w s
  = (Ok (cacheLookup (now w) (cache s) (cacheKeyOf op city)), s).
Proof.
  intros Hhit.
  destruct op; cbn [perform cacheKeyOf] in *;
    unfold getWeatherByCity, getFiveDayForecast, bind, cacheManager_get;
    rewrite Hhit; reflexivity.
Qed.

Lemma perform_miss op city w s :
  truthy (cacheLookup (now w) (cache s) (cacheKeyOf op city)) = false ->
  perform rt apiKey op city w s
  = let asked := effects s ++ [Geocode (geocodeUrl apiKey city)] in
    match httpGet w (geocodeUrl apiKey city) with
    | Err e => (Err e, {| cache := cache s; effects := asked |})
    | Ok (GeoData []) =>
        (Err (HttpException "도시 정보를 찾을 수 없습니다." NOT_FOUND),
         {| cache := cache s; effects := asked |})
    | Ok (GeoData (first :: _)) =>
        let url := endpointUrl apiKey (endpointOf op)
                     {| lat := lat first; lon := lon first |} in
        match httpGet w url with
        | Err e =>
            (Err (failureOf op),
             {| cache := cache s;
                effects := (asked ++ [Fetch url]) ++ [ConsoleError e] |})
        | Ok data =>
            match computeOf rt op data with
            | Ok v =>
                (Ok v,
                 {| cache := cacheStore (now w) (cache s) (cacheKeyOf op city) v cacheTTL;
                    effects := asked ++ [Fetch url] |})
            | Err _ =>
                (Err (failureOf op),
                 {| cache := cache s; effects := asked ++ [Fetch url] |})
            end
        end
    | Ok _ =>
        (Err (TypeError
           "Cannot destructure property 'lat' of 'data[0]' as it is undefined."),
         {| cache := cache s; effects := asked |})
    end.
Proof.
  intros Hmiss.
  destruct op; cbn [perform cacheKeyOf endpointOf failureOf computeOf] in *;
    unfold getWeatherByCity, getFiveDayForecast, bind, cacheManager_get;
    rewrite Hmiss;
    unfold getCoordinatesByCity, bind, httpService_get; cbn [cache effects];
    (destruct (httpGet w (geocodeUrl apiKey city)) as [[[|first rest]| |]|e];
     try reflexivity);
    unfold tryCatch, fetchWeatherData, tryCatch, bind, httpService_get, throw, ret;
    cbn [cache effects];
    (destruct (httpGet w _) as [data|e]; [|reflexivity]);
    unfold liftResult, bindResult, cacheManager_set.
  - destruct (formatWeatherData rt data); reflexivity.
  - destruct (responseList data) as [l|]; [|reflexivity].
    destruct (groupForecastByDate rt l); reflexivity.
Qed.

End CallFacts.

(** ** The cache store *)

Lemma present_lookup t c key v :
  present t c key v -> cacheLookup t c key = v.
Proof.
  intros (e & Hkey & Hlive & Hv). unfold cacheLookup. rewrite Hkey.
  destruct (Z.ltb_spec t (expiry e)); [assumption | lia].
Qed.

Lemma truthy_lookup_present t c key :
  truthy (cacheLookup t c key) = true -> present t c key (cacheLookup t c key).
Proof.
  unfold cacheLookup, present. destruct (c !! key) as [e|]; [|discriminate].
  destruct (Z.ltb_spec t (expiry e)); [|discriminate].
  intros _. exists e. auto.
Qed.

Lemma lookup_cacheStore t c key v ttl :
  cacheStore t c key v ttl !! key = Some {| value := v; expiry := t + ttl |}.
Proof. unfold cacheStore. apply lookup_insert_eq. Qed.

Lemma lookup_cacheStore_ne t c key key' v ttl :
  key <> key' -> cacheStore t c key v ttl !! key' = c !! key'.
Proof. intros Hne. unfold cacheStore. apply lookup_insert_ne. assumption. Qed.

(** ** What a call stores *)

Section StoreFacts.

Variable rt : JsDate.Runtime.
Variable apiKey : string.

Lemma computeOf_kind op data v :
  computeOf rt op data = Ok v -> kindOf op v.
Proof.
  destruct op; cbn [computeOf kindOf]; unfold bindResult.
  - destruct (formatWeatherData rt data) as [r|]; [|discriminate].
    intros [= <-]. exists r. reflexivity.
  - destruct (responseList data) as [l|]; [|discriminate].
    destruct (groupForecastByDate rt l) as [g|]; [|discriminate].
    intros [= <-]. exists g. reflexivity.
Qed.

Lemma kindOf_truthy op v : kindOf op v -> truthy v = true.
Proof. destruct op; intros [x ->]; reflexivity. Qed.

(** A call leaves the cache alone or stores, under the operation's key
    for the city, a value of the operation's kind expiring one TTL
    later. *)
Lemma perform_cache op city w s :
  cache (snd (perform rt apiKey op city w s)) = cache s
  \/ exists v, kindOf op v
       /\ fst (perform rt apiKey op city w s) = Ok v
       /\ cache (snd (perform rt apiKey op city w s))
          = cacheStore (now w) (cache s) (cacheKeyOf op city) v cacheTTL.
Proof.
  destruct (truthy (cacheLookup (now w) (cache s) (cacheKeyOf op city))) eqn:Hlook.
  - rewrite perform_hit by assumption. left. reflexivity.
  - rewrite perform_miss by assumption. cbv zeta.
    destruct (httpGet w (geocodeUrl apiKey city)) as [[[|first rest]| |]|e];
      try (left; reflexivity).
    destruct (httpGet w _) as [data|e]; [|left; reflexivity].
    destruct (computeOf rt op data) as [v|e] eqn:Hcompute; [|left; reflexivity].
    right. exists v. split; [|split; reflexivity].
    eapply computeOf_kind. eassumption.
Qed.

End StoreFacts.

(** ** Two calls in succession *)

Lemma filter_length_snoc {A} (f : A -> bool) (l : list A) (x : A) :
  List.length (List.filter f (l ++ [x]))
  = (List.length (List.filter f l) + (if f x then 1 else 0))%nat.
Proof.
  rewrite List.filter_app, List.length_app. cbn [List.filter].
  destruct (f x); reflexivity.
Qed.

Section Idempotence.

Variable rt : JsDate.Runtime.
Variable apiKey : string.

(** A call makes at most one geocoding request and at most one fetch. *)
Lemma perform_calls op city w s :
  (geocodeCalls (snd (perform rt apiKey op city w s)) <= geocodeCalls s + 1)%nat
  /\ (fetchCalls (snd (perform rt apiKey op city w s)) <= fetchCalls s + 1)%nat.
Proof.
  unfold geocodeCalls, fetchCalls.
  destruct (truthy (cacheLookup (now w) (cache s) (cacheKeyOf op city))) eqn:Hlook.
  - rewrite perform_hit by assumption. cbn [snd]. lia.
  - rewrite perform_miss by assumption. cbv zeta.
    destruct (httpGet w (geocodeUrl apiKey city)) as [[[|first rest]| |]|e];
      cbn [snd effects]; rewrite ?filter_length_snoc; cbn [isGeocode isFetch];
      try lia.
    destruct (httpGet w _) as [data|e];
      [destruct (computeOf rt op data)|];
      cbn [snd effects]; rewrite ?filter_length_snoc; cbn [isGeocode isFetch]; lia.
Qed.

(** C2, amended: when a call succeeds, a second call of the same
    operation for the same city made while the entry under the key is
    unexpired returns the same value and changes nothing, so the two
    calls together make at most one geocoding request and one fetch.
    After a call that computed its value the entry is unexpired exactly
    until one TTL after that call. *)
Theorem second_call_served_from_cache op city w1 w2 s0 s1 v :
  perform rt apiKey op city w1 s0 = (Ok v, s1) ->
  liveAt (cache s1) (cacheKeyOf op city) (now w2) ->
  perform rt apiKey op city w2 s1 = (Ok v, s1)
  /\ (geocodeCalls s1 <= geocodeCalls s0 + 1)%nat
  /\ (fetchCalls s1 <= fetchCalls s0 + 1)%nat
  /\ (truthy (cacheLookup (now w1) (cache s0) (cacheKeyOf op city)) = false ->
      forall t, liveAt (cache s1) (cacheKeyOf op city) t <-> t < now w1 + cacheTTL).
Proof.
  intros Hfirst (e & Hkey & Hlive).
  pose proof (perform_calls op city w1 s0) as Hcalls.
  rewrite Hfirst in Hcalls. cbn [snd] in Hcalls.
  assert (Hentry : truthy v = true /\ value e = v
          /\ (truthy (cacheLookup (now w1) (cache s0) (cacheKeyOf op city)) = false ->
              expiry e = now w1 + cacheTTL)).
  { destruct (truthy (cacheLookup (now w1) (cache s0) (cacheKeyOf op city))) eqn:Hlook.
    - rewrite perform_hit in Hfirst by assumption.
      injection Hfirst as Hv Hs. subst s1.
      destruct (truthy_lookup_present _ _ _ Hlook) as (e' & Hkey' & _ & Hv').
      rewrite Hkey in Hkey'. injection Hkey' as <-.
      rewrite <- Hv, <- Hv'. split; [rewrite Hv'; assumption |]. split; [reflexivity | discriminate].
    - rewrite perform_miss in Hfirst by assumption. cbv zeta in Hfirst.
      destruct (httpGet w1 (geocodeUrl apiKey city)) as [[[|first rest]| |]|e'];
        try discriminate.
      destruct (httpGet w1 _) as [data|e']; [|discriminate].
      destruct (computeOf rt op data) as [v'|e'] eqn:Hcompute; [|discriminate].
      injection Hfirst as Hv Hs. subst v' s1. cbn [cache] in Hkey.
      rewrite lookup_cacheStore in Hkey. injection Hkey as <-.
      split; [|split; [reflexivity | reflexivity]].
      eapply kindOf_truthy, computeOf_kind. eassumption. }
  destruct Hentry as (Htruthy & Hvalue & Hexpiry).
  assert (Hlook2 : cacheLookup (now w2) (cache s1) (cacheKeyOf op city) = v).
  { apply present_lookup. exists e. auto. }
  split; [|split; [apply Hcalls | split; [apply Hcalls |]]].
  - rewrite perform_hit; rewrite Hlook2; [reflexivity | assumption].
  - intros Hmiss t. specialize (Hexpiry Hmiss). unfold liveAt. split.
    + intros (e' & Hkey' & Ht). rewrite Hkey in Hkey'. injection Hkey' as <-. lia.
    + intros Ht. exists e. split; [assumption | lia].
Qed.

End Idempotence.

(** A first call at time 0 computes Seoul's report and stores it until
    300; a second call at time 299 is served from the cache, whatever
    the upstream has become. *)
Lemma second_call_served_from_cache_witness :
  exists v,
    Scenario.seoulFirstCall = (Ok v, snd Scenario.seoulFirstCall)
    /\ liveAt (cache (snd Scenario.seoulFirstCall)) "weather_Seoul" 299
    /\ getWeatherByCity Scenario.utc Scenario.apiKey "Seoul"
         (Scenario.providerDown 299) (snd Scenario.seoulFirstCall)
       = (Ok v, snd Scenario.seoulFirstCall).
Proof.
  assert (Hrun : exists v, Scenario.seoulFirstCall = (Ok v, snd Scenario.seoulFirstCall)).
  { vm_compute. eexists. reflexivity. }
  destruct Hrun as [v Hrun].
  assert (Hlive : liveAt (cache (snd Scenario.seoulFirstCall)) "weather_Seoul" 299).
  { eexists. split; [vm_compute; reflexivity | cbn; lia]. }
  exists v. split; [exact Hrun | split; [exact Hlive |]].
  exact (proj1 (second_call_served_from_cache Scenario.utc Scenario.apiKey
                  CurrentWeather "Seoul" (Scenario.healthy 0)
                  (Scenario.providerDown 299) (initial ∅)
                  (snd Scenario.seoulFirstCall) v Hrun Hlive)).
Defined.

(** C2 as stated fails: for a city the geocoder does not know, two
    calls one time unit apart both fail and each asks the geocoder, two
    geocoding requests in total. *)
Lemma failed_call_is_repeated :
  now (Scenario.unknownCity 0) <= now (Scenario.unknownCity 1)
    < now (Scenario.unknownCity 0) + cacheTTL
  /\ fst Scenario.atlantisFirstCall
     = Err (HttpException "도시 정보를 찾을 수 없습니다." NOT_FOUND)
  /\ fst Scenario.atlantisSecondCall = fst Scenario.atlantisFirstCall
  /\ geocodeCalls (snd Scenario.atlantisSecondCall) = 2%nat
  /\ ~ (geocodeCalls (snd Scenario.atlantisSecondCall) <= 1)%nat.
Proof.
  split; [unfold cacheTTL; cbn; lia |].
  split; [vm_compute; reflexivity |].
  split; [vm_compute; reflexivity |].
  split; [vm_compute; reflexivity |].
  vm_compute. intros H. inversion H as [|? H']; inversion H'.
Qed.

(** ** Failures *)

Section Failures.

Variable rt : JsDate.Runtime.
Variable apiKey : string.

Lemma getCoordinatesByCity_run city w s :
  getCoordinatesByCity apiKey city w s
  = let s' := {| cache := cache s;
                 effects := effects s ++ [Geocode (geocodeUrl apiKey city)] |} in
    match httpGet w (geocodeUrl apiKey city) with
    | Err e => (Err e, s')
    | Ok (GeoData []) =>
        (Err (HttpException "도시 정보를 찾을 수 없습니다." NOT_FOUND), s')
    | Ok (GeoData (first :: _)) => (Ok {| lat := lat first; lon := lon first |}, s')
    | Ok _ =>
        (Err (TypeError
           "Cannot destructure property 'lat' of 'data[0]' as it is undefined."), s')
    end.
Proof.
  unfold getCoordinatesByCity, bind, httpService_get. cbv zeta.
  destruct (httpGet w (geocodeUrl apiKey city)) as [[[|first rest]| |]|e]; reflexivity.
Qed.

Lemma fetchWeatherData_run url w s :
  fetchWeatherData url w s
  = match httpGet w url with
    | Ok data => (Ok data, {| cache := cache s; effects := effects s ++ [Fetch url] |})
    | Err e =>
        (Err (HttpException "City not found" NOT_FOUND),
         {| cache := cache s;
            effects := (effects s ++ [Fetch url]) ++ [ConsoleError e] |})
    end.
Proof.
  unfold fetchWeatherData, tryCatch, bind, httpService_get, console_error, throw.
  destruct (httpGet w url); reflexivity.
Qed.

(** C3, amended: on a lookup miss, an error thrown by the geocoder
    reaches the caller as it is, together with the state the geocoder
    left; an error thrown by [fetchWeatherData], which is always the
    404 [City not found], does not: the operation replaces it by its
    own 500 error.  Nothing is retried. *)
Theorem geocoder_error_unchanged_fetch_error_replaced op city w s :
  truthy (cacheLookup (now w) (cache s) (cacheKeyOf op city)) = false ->
  match getCoordinatesByCity apiKey city w s with
  | (Err e, s') => perform rt apiKey op city w s = (Err e, s')
  | (Ok c, s') =>
      forall e s'',
        fetchWeatherData (endpointUrl apiKey (endpointOf op) c) w s' = (Err e, s'') ->
        e = HttpException "City not found" NOT_FOUND
        /\ perform rt apiKey op city w s = (Err (failureOf op), s'')
        /\ fetchCalls s'' = (fetchCalls s + 1)%nat
  end.
Proof.
  intros Hmiss. rewrite perform_miss by assumption.
  rewrite getCoordinatesByCity_run. cbv zeta.
  destruct (httpGet w (geocodeUrl apiKey city)) as [[[|first rest]| |]|e0];
    try reflexivity.
  intros e s''. rewrite fetchWeatherData_run.
  destruct (httpGet w _) as [data|e1]; [discriminate |].
  cbn [cache effects]. intros [= <- <-].
  split; [reflexivity | split; [reflexivity |]].
  unfold fetchCalls. cbn [effects].
  rewrite !filter_length_snoc. cbn [isFetch]. lia.
Qed.

(** C4: on a lookup miss, either operation fails with the 404
    [HttpException] when the geocoder answers with an empty list, and
    with its 500 [HttpException] when the geocoder answers and the
    weather or forecast request fails; in both cases the cache is what
    it was. *)
Theorem failures_leave_cache_unchanged op city w s :
  truthy (cacheLookup (now w) (cache s) (cacheKeyOf op city)) = false ->
  (httpGet w (geocodeUrl apiKey city) = Ok (GeoData []) ->
   fst (perform rt apiKey op city w s)
   = Err (HttpException "도시 정보를 찾을 수 없습니다." NOT_FOUND)
   /\ cache (snd (perform rt apiKey op city w s)) = cache s)
  /\ (forall first rest e,
        httpGet w (geocodeUrl apiKey city) = Ok (GeoData (first :: rest)) ->
        httpGet w (endpointUrl apiKey (endpointOf op)
                     {| lat := lat first; lon := lon first |}) = Err e ->
        fst (perform rt apiKey op city w s) = Err (failureOf op)
        /\ (exists message,
              failureOf op = HttpException message INTERNAL_SERVER_ERROR)
        /\ cache (snd (perform rt apiKey op city w s)) = cache s).
Proof.
  intros Hmiss. rewrite perform_miss by assumption. cbv zeta. split.
  - intros ->. split; reflexivity.
  - intros first rest e -> ->. split; [reflexivity | split; [|reflexivity]].
    destruct op; eexists; reflexivity.
Qed.

(** C10: when the current-weather endpoint answers with an empty
    weather-condition list, [getWeatherByCity] fails, on a lookup miss,
    with the 500 [Failed to fetch weather data], the error it also
    gives when the request itself fails, and the cache is what it
    was. *)
Theorem empty_condition_list_is_internal_failure city w s first rest d :
  truthy (cacheLookup (now w) (cache s) ("weather_" +:+ city)) = false ->
  httpGet w (geocodeUrl apiKey city) = Ok (GeoData (first :: rest)) ->
  httpGet w (endpointUrl apiKey "/weather" {| lat := lat first; lon := lon first |})
  = Ok (WeatherData d) ->
  weather d = [] ->
  fst (getWeatherByCity rt apiKey city w s)
  = Err (HttpException "Failed to fetch weather data" INTERNAL_SERVER_ERROR)
  /\ cache (snd (getWeatherByCity rt apiKey city w s)) = cache s
  /\ forall w' e,
       now w' = now w ->
       httpGet w' (geocodeUrl apiKey city) = Ok (GeoData (first :: rest)) ->
       httpGet w' (endpointUrl apiKey "/weather"
                     {| lat := lat first; lon := lon first |}) = Err e ->
       fst (getWeatherByCity rt apiKey city w' s)
       = fst (getWeatherByCity rt apiKey city w s).
Proof.
  intros Hmiss Hgeo Hfetch Hweather.
  change (getWeatherByCity rt apiKey) with (perform rt apiKey CurrentWeather).
  rewrite (perform_miss rt apiKey CurrentWeather) by assumption. cbv zeta.
  rewrite Hgeo. cbn [endpointOf]. rewrite Hfetch.
  cbn [computeOf formatWeatherData]. rewrite Hweather. cbn [bindResult fst snd cache].
  split; [reflexivity | split; [reflexivity |]].
  intros w' e Hnow Hgeo' Hfetch'.
  rewrite (perform_miss rt apiKey CurrentWeather)
    by (cbn [cacheKeyOf]; rewrite Hnow; assumption).
  cbv zeta. rewrite Hgeo'. cbn [endpointOf]. rewrite Hfetch'. reflexivity.
Qed.

End Failures.

(** The geocoder's 404 for an unknown city reaches the caller as thrown. *)
Lemma geocoder_error_unchanged_fetch_error_replaced_witness :
  truthy (cacheLookup 0 ∅ "weather_Atlantis") = false
  /\ fst (getCoordinatesByCity Scenario.apiKey "Atlantis"
            (Scenario.unknownCity 0) (initial ∅))
     = Err (HttpException "도시 정보를 찾을 수 없습니다." NOT_FOUND)
  /\ getWeatherByCity Scenario.utc Scenario.apiKey "Atlantis"
       (Scenario.unknownCity 0) (initial ∅)
     = (Err (HttpException "도시 정보를 찾을 수 없습니다." NOT_FOUND),
        {| cache := ∅;
           effects :=
             [Geocode "http://api.openweathermap.org/geo/1.0/direct?q=Atlantis&limit=1&appid=KEY"] |}).
Proof.
  split; [reflexivity |]. split; [reflexivity |].
  exact (geocoder_error_unchanged_fetch_error_replaced Scenario.utc Scenario.apiKey
           CurrentWeather "Atlantis" (Scenario.unknownCity 0) (initial ∅) eq_refl).
Defined.

(** C3 as stated fails: with the provider down, [fetchWeatherData]
    throws the 404 [City not found], and the caller of
    [getWeatherByCity] receives another error, the 500
    [Failed to fetch weather data]. *)
Lemma fetch_error_is_replaced :
  fst (fetchWeatherData
         "http://api.openweathermap.org/data/2.5/weather?lat=37.5665&lon=126.978&appid=KEY&units=metric&lang=kr"
         (Scenario.providerDown 0) (initial ∅))
  = Err (HttpException "City not found" 404)
  /\ getWeatherByCity Scenario.utc Scenario.apiKey "Seoul"
       (Scenario.providerDown 0) (initial ∅)
     = (Err (HttpException "Failed to fetch weather data" 500),
        {| cache := ∅;
           effects :=
             [Geocode "http://api.openweathermap.org/geo/1.0/direct?q=Seoul&limit=1&appid=KEY";
              Fetch "http://api.openweathermap.org/data/2.5/weather?lat=37.5665&lon=126.978&appid=KEY&units=metric&lang=kr";
              ConsoleError (AxiosError "Request failed with status code 503")] |})
  /\ HttpException "Failed to fetch weather data" 500
     <> HttpException "City not found" 404.
Proof.
  split; [vm_compute; reflexivity |].
  split; [vm_compute; reflexivity | discriminate].
Qed.

(** Both failures on an empty cache: an unknown city, and a provider
    that is down. *)
Lemma failures_leave_cache_unchanged_witness :
  (fst (getFiveDayForecast Scenario.utc Scenario.apiKey "Atlantis"
          (Scenario.unknownCity 0) (initial ∅))
   = Err (HttpException "도시 정보를 찾을 수 없습니다." NOT_FOUND)
   /\ cache (snd (getFiveDayForecast Scenario.utc Scenario.apiKey "Atlantis"
                    (Scenario.unknownCity 0) (initial ∅))) = ∅)
  /\ (fst (getFiveDayForecast Scenario.utc Scenario.apiKey "Seoul"
             (Scenario.providerDown 0) (initial ∅))
      = Err (HttpException "Failed to fetch forecast data" INTERNAL_SERVER_ERROR)
      /\ cache (snd (getFiveDayForecast Scenario.utc Scenario.apiKey "Seoul"
                       (Scenario.providerDown 0) (initial ∅))) = ∅).
Proof.
  split.
  - exact (proj1 (failures_leave_cache_unchanged Scenario.utc Scenario.apiKey
                    FiveDayForecast "Atlantis" (Scenario.unknownCity 0) (initial ∅)
                    eq_refl) eq_refl).
  - assert (Hmiss : truthy (cacheLookup (now (Scenario.providerDown 0))
                              (cache (initial ∅))
                              (cacheKeyOf FiveDayForecast "Seoul")) = false)
      by reflexivity.
    assert (Hgeo : httpGet (Scenario.providerDown 0)
                     (geocodeUrl Scenario.apiKey "Seoul")
                   = Ok (GeoData [Scenario.seoulCoordinates]))
      by reflexivity.
    assert (Hfetch : httpGet (Scenario.providerDown 0)
                       (endpointUrl Scenario.apiKey (endpointOf FiveDayForecast)
                          {| lat := lat Scenario.seoulCoordinates;
                             lon := lon Scenario.seoulCoordinates |})
                     = Err (AxiosError "Request failed with status code 503"))
      by (vm_compute; reflexivity).
    destruct (proj2 (failures_leave_cache_unchanged Scenario.utc Scenario.apiKey
                       FiveDayForecast "Seoul" (Scenario.providerDown 0) (initial ∅)
                       Hmiss) _ _ _ Hgeo Hfetch)
      as (Hfailure & _ & Hcache).
    split; [exact Hfailure | exact Hcache].
Defined.

(** An empty weather-condition list for Seoul. *)
Lemma empty_condition_list_is_internal_failure_witness :
  weather Scenario.noCondition = []
  /\ fst (getWeatherByCity Scenario.utc Scenario.apiKey "Seoul"
            (Scenario.conditionless 0) (initial ∅))
     = Err (HttpException "Failed to fetch weather data" INTERNAL_SERVER_ERROR)
  /\ cache (snd (getWeatherByCity Scenario.utc Scenario.apiKey "Seoul"
                   (Scenario.conditionless 0) (initial ∅))) = ∅.
Proof.
  split; [reflexivity |].
  assert (Hmiss : truthy (cacheLookup (now (Scenario.conditionless 0))
                            (cache (initial ∅)) ("weather_" +:+ "Seoul")) = false)
    by reflexivity.
  assert (Hgeo : httpGet (Scenario.conditionless 0)
                   (geocodeUrl Scenario.apiKey "Seoul")
                 = Ok (GeoData [Scenario.seoulCoordinates]))
    by reflexivity.
  assert (Hfetch : httpGet (Scenario.conditionless 0)
                     (endpointUrl Scenario.apiKey "/weather"
                        {| lat := lat Scenario.seoulCoordinates;
                           lon := lon Scenario.seoulCoordinates |})
                   = Ok (WeatherData Scenario.noCondition))
    by (vm_compute; reflexivity).
  destruct (empty_condition_list_is_internal_failure Scenario.utc Scenario.apiKey
              "Seoul" (Scenario.conditionless 0) (initial ∅)
              Scenario.seoulCoordinates [] Scenario.noCondition
              Hmiss Hgeo Hfetch eq_refl)
    as (Hfailure & Hcache & _).
  split; [exact Hfailure | exact Hcache].
Defined.

(** ** The cache invariant *)

Section Invariant.

Variable rt : JsDate.Runtime.
Variable apiKey : string.

(** Every entry was stored by one of the two operations, under its own
    prefix and with its own kind of value. *)
Lemma reachable_entries c :
  reachable rt apiKey c ->
  forall key e, c !! key = Some e ->
    exists op city, key = cacheKeyOf op city /\ kindOf op (value e).
Proof.
  induction 1 as [|op city w s _ IH]; intros key e Hkey.
  - rewrite lookup_empty in Hkey. discriminate.
  - destruct (perform_cache rt apiKey op city w s) as [Hsame | (v & Hkind & _ & Hstore)].
    + rewrite Hsame in Hkey. eauto.
    + rewrite Hstore in Hkey.
      destruct (decide (cacheKeyOf op city = key)) as [<- | Hne].
      * rewrite lookup_cacheStore in Hkey. injection Hkey as <-.
        exists op, city. split; [reflexivity | exact Hkind].
      * rewrite lookup_cacheStore_ne in Hkey by assumption. eauto.
Qed.

(** C9: in every cache state reached from the empty cache by calls of
    the two operations, an entry whose key starts with [weather_] holds
    a current-weather report and an entry whose key starts with
    [forecast_] holds a grouped forecast. *)
Theorem cache_value_kind_by_prefix c key e :
  reachable rt apiKey c ->
  c !! key = Some e ->
  (String.prefix "weather_" key = true -> isReport (value e))
  /\ (String.prefix "forecast_" key = true -> isGroupedForecast (value e)).
Proof.
  intros Hreach Hkey.
  destruct (reachable_entries c Hreach key e Hkey) as (op & city & -> & Hkind).
  destruct op; cbn [cacheKeyOf kindOf] in *.
  - split; [intros _; exact Hkind | cbn; discriminate].
  - split; [cbn; discriminate | intros _; exact Hkind].
Qed.

End Invariant.

(** The cache after Seoul's first call. *)
Lemma cache_value_kind_by_prefix_witness :
  exists e,
    cache (snd Scenario.seoulFirstCall) !! "weather_Seoul" = Some e
    /\ isReport (value e).
Proof.
  assert (Hkey : exists e,
             cache (snd Scenario.seoulFirstCall) !! "weather_Seoul" = Some e).
  { vm_compute. eexists. reflexivity. }
  destruct Hkey as [e Hkey]. exists e. split; [exact Hkey |].
  exact (proj1 (cache_value_kind_by_prefix Scenario.utc Scenario.apiKey
                  (cache (snd Scenario.seoulFirstCall)) "weather_Seoul" e
                  (reachable_call Scenario.utc Scenario.apiKey CurrentWeather
                     "Seoul" (Scenario.healthy 0) (initial ∅)
                     (reachable_empty Scenario.utc Scenario.apiKey))
                  Hkey) eq_refl).
Defined.

(** ** The cache-aside lookup *)

Section CacheAside.

Variable rt : JsDate.Runtime.
Variable apiKey : string.






End CacheAside.


(** ** Number formatting *)

Lemma length_append (a b : string) :
  String.length (a +:+ b) = (String.length a + String.length b)%nat.
Proof. induction a as [|c a IH]; simpl; [reflexivity | rewrite IH; reflexivity]. Qed.

Lemma allDigits_append (a b : string) :
  JsString.allDigits (a +:+ b) = JsString.allDigits a && JsString.allDigits b.
Proof.
  induction a as [|c a IH]; simpl; [reflexivity |].
  rewrite IH. apply andb_assoc.
Qed.

Lemma allDigits_zeros n : JsString.allDigits (JsNumber.zeros n) = true.
Proof. induction n as [|n IH]; cbn; [reflexivity | exact IH]. Qed.

Lemma length_zeros n : String.length (JsNumber.zeros n) = n.
Proof. induction n as [|n IH]; cbn; [reflexivity | rewrite IH; reflexivity]. Qed.

Lemma allDigits_string_of_uint u :
  JsString.allDigits (NilEmpty.string_of_uint u) = true.
Proof. induction u; cbn; try reflexivity; assumption. Qed.

Lemma allDigits_decimalDigits n : JsString.allDigits (JsNumber.decimalDigits n) = true.
Proof.
  unfold JsNumber.decimalDigits, NilZero.string_of_uint.
  destruct (N.to_uint (Z.to_N n)); try reflexivity;
    apply (allDigits_string_of_uint (_ u)) || idtac.
  all: cbn; apply allDigits_string_of_uint.
Qed.

Lemma decimalDigits_nonempty n : (1 <= String.length (JsNumber.decimalDigits n))%nat.
Proof.
  unfold JsNumber.decimalDigits, NilZero.string_of_uint.
  destruct (N.to_uint (Z.to_N n)); cbn; lia.
Qed.

(** Splitting a string of digits before its last two. *)
Lemma digitsPointTwo_cons c r :
  JsString.isDigit c = true -> digitsPointTwo r = true ->
  digitsPointTwo (String c r) = true.
Proof.
  intros Hc Hr. cbn [digitsPointTwo]. fold digitsPointTwo. rewrite Hc, Hr.
  destruct r as [|a [|b [|? ?]]]; rewrite ?orb_true_r; reflexivity.
Qed.

Lemma digitsPointTwo_last a b :
  JsString.isDigit a = true -> JsString.isDigit b = true ->
  digitsPointTwo (String "." (String a (String b ""))) = true.
Proof. intros Ha Hb. cbn [digitsPointTwo]. rewrite Ha, Hb. reflexivity. Qed.

Lemma digitsPointTwo_split n : forall s,
  JsString.allDigits s = true ->
  String.length s = (n + 2)%nat ->
  digitsPointTwo (JsNumber.substring_to n s +:+ "." +:+ JsNumber.substring_from n s) = true.
Proof.
  unfold JsNumber.substring_to, JsNumber.substring_from.
  induction n as [|n IH]; intros s Hdigits Hlen.
  - destruct s as [|a [|b [|c s]]]; try discriminate.
    cbn [JsString.allDigits] in Hdigits.
    apply andb_prop in Hdigits as [Ha Hb]. apply andb_prop in Hb as [Hb _].
    apply digitsPointTwo_last; assumption.
  - destruct s as [|c s]; [discriminate |]. cbn [JsString.allDigits] in Hdigits.
    apply andb_prop in Hdigits as [Hc Hs]. injection Hlen as Hlen.
    specialize (IH s Hs Hlen).
    apply digitsPointTwo_cons; assumption.
Qed.

Lemma isTwoDecimal_digit c r :
  JsString.isDigit c = true -> digitsPointTwo r = true ->
  isTwoDecimal (String c r) = true.
Proof.
  intros Hc Hr.
  destruct c as [[] [] [] [] [] [] [] []]; try discriminate Hc;
    cbn [isTwoDecimal]; rewrite Hr; reflexivity.
Qed.

Lemma isTwoDecimal_minus c r :
  JsString.isDigit c = true -> digitsPointTwo r = true ->
  isTwoDecimal (String "-" (String c r)) = true.
Proof. intros Hc Hr. cbn [isTwoDecimal]. rewrite Hc, Hr. reflexivity. Qed.

(** The digits of [toFixed(2)]: at least one digit, a point, two digits. *)
Lemma fixedDigits_shape n :
  exists c r, JsNumber.fixedDigits n 2 = String c r
    /\ JsString.isDigit c = true /\ digitsPointTwo r = true.
Proof.
  unfold JsNumber.fixedDigits.
  set (m := JsNumber.decimalDigits n).
  set (k := String.length m).
  set (m' := if (k <=? 2)%nat then (JsNumber.zeros (2 + 1 - k) +:+ m)%string else m).
  set (k' := if (k <=? 2)%nat then (2 + 1)%nat else k).
  assert (Hdigits : JsString.allDigits m' = true).
  { subst m'. destruct (k <=? 2)%nat.
    - rewrite allDigits_append, allDigits_zeros. apply allDigits_decimalDigits.
    - apply allDigits_decimalDigits. }
  assert (Hk : (1 <= k)%nat) by apply decimalDigits_nonempty.
  assert (Hlen : String.length m' = k' /\ (3 <= k')%nat).
  { subst m' k'. destruct (Nat.leb_spec k 2).
    - rewrite length_append, length_zeros. fold k. lia.
    - fold k. lia. }
  destruct Hlen as [Hlen Hk'].
  destruct m' as [|c s] eqn:Hm'; [cbn in Hlen; lia |].
  assert (Hsplit := digitsPointTwo_split (k' - 3) s).
  cbn [JsString.allDigits] in Hdigits. apply andb_prop in Hdigits as [Hc Hs].
  cbn [String.length] in Hlen.
  specialize (Hsplit Hs ltac:(lia)).
  exists c, (JsNumber.substring_to (k' - 3) s +:+ "." +:+ JsNumber.substring_from (k' - 3) s)%string.
  split; [|split; assumption].
  unfold JsNumber.substring_to, JsNumber.substring_from.
  replace (k' - 2)%nat with (S (k' - 3)) by lia.
  cbn [String.substring String.append String.length].
  replace (S (String.length s) - S (k' - 3))%nat with (String.length s - (k' - 3))%nat by lia.
  reflexivity.
Qed.

Lemma eqb_append_false c (a unit : string) :
  String.eqb (String c a +:+ unit) unit = false.
Proof.
  apply String.eqb_neq. intros Heq.
  apply (f_equal String.length) in Heq. rewrite length_append in Heq.
  cbn [String.length] in Heq. lia.
Qed.

Lemma append_nil (s : string) : ("" +:+ s)%string = s.
Proof. reflexivity. Qed.

Lemma append_cons c (a b : string) : (String c a +:+ b)%string = String c (a +:+ b).
Proof. reflexivity. Qed.

Lemma stripSuffix_append (unit body : string) :
  stripSuffix unit (body +:+ unit) = Some body.
Proof.
  induction body as [|c body IH].
  - rewrite append_nil. destruct unit as [|c unit]; [reflexivity |].
    cbn [stripSuffix]. rewrite String.eqb_refl. reflexivity.
  - pose proof (eqb_append_false c body unit) as Hne.
    rewrite append_cons in Hne |- *.
    cbn [stripSuffix]. rewrite Hne, IH. reflexivity.
Qed.

(** [toFixed(2)] of a number in the plain range is a two-decimal
    numeral. *)
Lemma toFixed_two_decimals x :
  fixedRange x = true -> isTwoDecimal (JsNumber.toFixed 2 x) = true.
Proof.
  unfold fixedRange, JsNumber.toFixed, JsNumber.toFixedSF.
  destruct (Prim2SF x) as [s| | |s m e]; try discriminate.
  - intros _. reflexivity.
  - intros Hrange. apply negb_true_iff in Hrange. rewrite Hrange.
    destruct (fixedDigits_shape (JsNumber.roundHalfUp m e (Z.of_nat 2)))
      as (c & r & -> & Hc & Hr).
    destruct s; rewrite ?append_cons, append_nil.
    + apply isTwoDecimal_minus; assumption.
    + apply isTwoDecimal_digit; assumption.
Qed.

Lemma toFixed_with_unit x unit :
  fixedRange x = true ->
  twoDecimalsWithUnit unit (JsNumber.toFixed 2 x +:+ unit) = true.
Proof.
  intros Hrange. unfold twoDecimalsWithUnit. rewrite stripSuffix_append.
  apply toFixed_two_decimals. assumption.
Qed.

(** Reading a numeral written by [decimalDigits] gives the number back. *)
Lemma digitsValue_step acc c s :
  JsString.digitsValue acc (String c s)
  = JsString.digitsValue (10 * acc + (Z.of_nat (nat_of_ascii c) - 48)) s.
Proof. reflexivity. Qed.

Lemma digitsValue_of_uint_acc u : forall p,
  Z.pos (Pos.of_uint_acc u p) = JsString.digitsValue (Z.pos p) (NilEmpty.string_of_uint u).
Proof.
  induction u; intros p; cbn [Pos.of_uint_acc NilEmpty.string_of_uint];
    [reflexivity | ..]; rewrite IHu, digitsValue_step; f_equal;
    match goal with
    | |- context [Z.of_nat (nat_of_ascii ?c) - 48] =>
        let v := eval vm_compute in (Z.of_nat (nat_of_ascii c) - 48) in
        change (Z.of_nat (nat_of_ascii c) - 48) with v
    end; lia.
Qed.

Lemma digitsValue_of_uint u :
  Z.of_N (Pos.of_uint u) = JsString.digitsValue 0 (NilEmpty.string_of_uint u).
Proof.
  induction u; cbn [Pos.of_uint NilEmpty.string_of_uint];
    [reflexivity | rewrite digitsValue_step; exact IHu | ..];
    cbn [Z.of_N]; rewrite digitsValue_of_uint_acc, digitsValue_step; reflexivity.
Qed.

Lemma digitsValue_decimalDigits n :
  0 <= n -> JsString.digitsValue 0 (JsNumber.decimalDigits n) = n.
Proof.
  intros Hn. unfold JsNumber.decimalDigits.
  rewrite <- (Z2N.id n) at 2 by assumption.
  rewrite <- (DecimalN.Unsigned.of_to (Z.to_N n)) at 2.
  change N.of_uint with Pos.of_uint. rewrite digitsValue_of_uint.
  unfold NilZero.string_of_uint.
  destruct (N.to_uint (Z.to_N n)); reflexivity.
Qed.

Lemma digit_is_not_point c : JsString.isDigit c = true -> Ascii.eqb c "." = false.
Proof. destruct c as [[] [] [] [] [] [] [] []]; intros H; try discriminate H; reflexivity. Qed.

Lemma digit_is_not_minus c s :
  JsString.isDigit c = true -> hundredths (String c s) = readHundredths 0 (String c s).
Proof. destruct c as [[] [] [] [] [] [] [] []]; intros H; try discriminate H; reflexivity. Qed.

Lemma readHundredths_digits a : forall acc s,
  JsString.allDigits a = true ->
  readHundredths acc (a +:+ s) = readHundredths (JsString.digitsValue acc a) s.
Proof.
  induction a as [|c a IH]; intros acc s Hdigits; [reflexivity |].
  cbn [JsString.allDigits] in Hdigits. apply andb_prop in Hdigits as [Hc Ha].
  rewrite append_cons. cbn [readHundredths JsString.digitsValue].
  rewrite (digit_is_not_point c Hc). apply IH. assumption.
Qed.

Lemma digitsValue_append a : forall acc b,
  JsString.digitsValue acc (a +:+ b)
  = JsString.digitsValue (JsString.digitsValue acc a) b.
Proof.
  induction a as [|c a IH]; intros acc b; [reflexivity |].
  rewrite append_cons. cbn [JsString.digitsValue]. apply IH.
Qed.

Lemma append_empty (s : string) : (s +:+ "")%string = s.
Proof. induction s as [|c s IH]; [reflexivity | rewrite append_cons, IH; reflexivity]. Qed.

Lemma readHundredths_point a b acc :
  JsString.allDigits a = true -> JsString.allDigits b = true ->
  readHundredths acc (a +:+ "." +:+ b) = JsString.digitsValue acc (a +:+ b).
Proof.
  intros Ha Hb. rewrite readHundredths_digits by assumption.
  rewrite append_cons, append_nil. cbn [readHundredths].
  replace (Ascii.eqb "." ".") with true by reflexivity.
  rewrite <- (append_empty b) at 1. rewrite readHundredths_digits by assumption.
  cbn [readHundredths]. rewrite digitsValue_append. reflexivity.
Qed.

Lemma substring_split k : forall s,
  (k <= String.length s)%nat ->
  (JsNumber.substring_to k s +:+ JsNumber.substring_from k s)%string = s.
Proof.
  unfold JsNumber.substring_to, JsNumber.substring_from.
  induction k as [|k IH]; intros s Hk.
  - rewrite Nat.sub_0_r.
    replace (String.substring 0 0 s) with ""%string by (destruct s; reflexivity).
    rewrite append_nil. clear Hk.
    induction s as [|c s IHs]; [reflexivity |].
    cbn [String.length String.substring]. rewrite IHs. reflexivity.
  - destruct s as [|c s]; [cbn in Hk; lia |].
    cbn [String.length] in Hk.
    cbn [String.length String.substring Nat.sub]. rewrite append_cons.
    rewrite IH by lia. reflexivity.
Qed.

Lemma digitsValue_zeros j s :
  JsString.digitsValue 0 (JsNumber.zeros j +:+ s) = JsString.digitsValue 0 s.
Proof.
  induction j as [|j IH]; [reflexivity |].
  cbn [JsNumber.zeros]. rewrite append_cons. cbn [JsString.digitsValue]. exact IH.
Qed.

(** The numeral of [toFixed(2)] reads as the integer it was made from. *)
Lemma fixedDigits_reads n :
  0 <= n -> hundredths (JsNumber.fixedDigits n 2) = n
            /\ readHundredths 0 (JsNumber.fixedDigits n 2) = n.
Proof.
  intros Hn.
  destruct (fixedDigits_shape n) as (c & r & Hshape & Hc & _).
  assert (Hread : readHundredths 0 (JsNumber.fixedDigits n 2) = n).
  { clear c r Hshape Hc. unfold JsNumber.fixedDigits.
    set (m := JsNumber.decimalDigits n).
    set (k := String.length m).
    set (m' := if (k <=? 2)%nat then (JsNumber.zeros (2 + 1 - k) +:+ m)%string else m).
    set (k' := if (k <=? 2)%nat then (2 + 1)%nat else k).
    assert (Hdigits : JsString.allDigits m' = true).
    { subst m'. destruct (k <=? 2)%nat.
      - rewrite allDigits_append, allDigits_zeros. apply allDigits_decimalDigits.
      - apply allDigits_decimalDigits. }
    assert (Hk : (1 <= k)%nat) by apply decimalDigits_nonempty.
    assert (Hlen : String.length m' = k' /\ (3 <= k')%nat).
    { subst m' k'. destruct (Nat.leb_spec k 2).
      - rewrite length_append, length_zeros. fold k. lia.
      - fold k. lia. }
    destruct Hlen as [Hlen Hk'].
    assert (Hvalue : JsString.digitsValue 0 m' = n).
    { subst m'. destruct (k <=? 2)%nat.
      - rewrite digitsValue_zeros. apply digitsValue_decimalDigits. assumption.
      - apply digitsValue_decimalDigits. assumption. }
    pose proof (substring_split (k' - 2) m' ltac:(lia)) as Hsplit.
    assert (Hparts : JsString.allDigits (JsNumber.substring_to (k' - 2) m') = true
                     /\ JsString.allDigits (JsNumber.substring_from (k' - 2) m') = true).
    { rewrite <- Hsplit, allDigits_append in Hdigits. apply andb_prop. assumption. }
    destruct Hparts as [Ha Hb].
    rewrite readHundredths_point by assumption. rewrite Hsplit. exact Hvalue. }
  split; [|exact Hread].
  rewrite Hshape in *. rewrite digit_is_not_minus by assumption. exact Hread.
Qed.

(** Rounding to the nearest hundredth. *)
Lemma roundHalfUp_nearest m e :
  Qle (Qabs (Qminus (Qmake (JsNumber.roundHalfUp m e 2) 100) (JsNumber.realValue m e)))
      (Qmake 1 200).
Proof.
  apply Qabs_Qle_condition.
  unfold JsNumber.roundHalfUp, JsNumber.realValue, JsNumber.pow2Q.
  destruct (Z.leb_spec 0 e) as [He | He].
  - unfold Qle, Qminus, Qplus, Qopp, Qmult, inject_Z. cbn [Qnum Qden].
    assert (0 < 2 ^ e) by (apply Z.pow_pos_nonneg; lia).
    split; nia.
  - assert (HD : 0 < 2 ^ (- e)) by (apply Z.pow_pos_nonneg; lia).
    replace (2 ^ (1 - e)) with (2 * 2 ^ (- e))
      by (replace (1 - e) with (Z.succ (- e)) by lia; rewrite Z.pow_succ_r by lia; reflexivity).
    set (D := 2 ^ (- e)) in *.
    pose proof (Z.div_mod (2 * Z.pos m * 10 ^ 2 + D) (2 * D) ltac:(lia)) as Hdiv.
    pose proof (Z.mod_pos_bound (2 * Z.pos m * 10 ^ 2 + D) (2 * D) ltac:(lia)) as Hmod.
    set (n := (2 * Z.pos m * 10 ^ 2 + D) / (2 * D)) in *.
    set (r := (2 * Z.pos m * 10 ^ 2 + D) mod (2 * D)) in *.
    change (10 ^ 2) with 100 in *.
    unfold Qle, Qminus, Qplus, Qopp, Qmult, inject_Z. cbn [Qnum Qden].
    rewrite !Pos2Z.inj_mul, Z2Pos.id by assumption.
    split; nia.
Qed.

Lemma Qabs_opp_minus (a : Z) (b c : Q) :
  Qle (Qabs (Qminus (Qmake a 100) b)) c ->
  Qle (Qabs (Qminus (Qmake (- a) 100) (Qopp b))) c.
Proof.
  intros H. apply Qabs_Qle_condition in H. apply Qabs_Qle_condition.
  destruct b as [bn bd], c as [cn cd].
  unfold Qle, Qminus, Qplus, Qopp in *. cbn [Qnum Qden] in *.
  destruct H as [H1 H2]. split; nia.
Qed.

(** [toFixed(2)] gives the hundredth nearest to the number. *)
Lemma toFixed_nearest x :
  fixedRange x = true ->
  Qle (Qabs (Qminus (Qmake (hundredths (JsNumber.toFixed 2 x)) 100) (floatValue x)))
      (Qmake 1 200).
Proof.
  unfold fixedRange, JsNumber.toFixed, JsNumber.toFixedSF, floatValue.
  destruct (Prim2SF x) as [s| | |s m e];
    [intros _; vm_compute; discriminate | discriminate | discriminate |].
  - intros Hrange. apply negb_true_iff in Hrange. rewrite Hrange.
    assert (Hn : 0 <= JsNumber.roundHalfUp m e (Z.of_nat 2)).
    { unfold JsNumber.roundHalfUp. destruct (0 <=? e) eqn:He.
      - apply Z.leb_le in He.
        assert (0 < 2 ^ e) by (apply Z.pow_pos_nonneg; lia). cbn. nia.
      - apply Z.leb_gt in He. apply Z.div_pos.
        + assert (0 < 2 ^ (- e)) by (apply Z.pow_pos_nonneg; lia). cbn. nia.
        + apply Z.pow_pos_nonneg; lia. }
    destruct (fixedDigits_reads _ Hn) as [Hsigned Hread].
    pose proof (roundHalfUp_nearest m e) as Hnear.
    change (Z.of_nat 2) with 2 in *.
    destruct s.
    + destruct (fixedDigits_shape (JsNumber.roundHalfUp m e 2)) as (c & r & Hshape & _).
      rewrite Hshape in *. rewrite !append_cons, append_nil.
      change (hundredths (String "-" (String c r)))
        with (- readHundredths 0 (String c r)).
      rewrite Hread. apply Qabs_opp_minus. exact Hnear.
    + rewrite append_nil, Hsigned. exact Hnear.
Qed.

Lemma toFixed_field x unit : fixedField x unit (JsNumber.toFixed 2 x +:+ unit).
Proof.
  split; [reflexivity |]. intros Hrange.
  split; [apply toFixed_with_unit; assumption |].
  exists (JsNumber.toFixed 2 x). split; [apply stripSuffix_append |].
  apply toFixed_nearest. assumption.
Qed.

Lemma rate_field p :
  rateField p (JsNumber.toString (oneHourOrZero p) +:+ "mm/h").
Proof.
  unfold rateField, oneHourOrZero. destruct p as [[[v|]]|]; try reflexivity.
  destruct (JsNumber.truthy v); reflexivity.
Qed.

Section Formatting.

Variable rt : JsDate.Runtime.

(** C6, amended: in every report and every forecast entry the formatter
    produces, [currentTemp], [apparentTemp], [minTemp] and [maxTemp] are
    [toFixed(2)] of the payload's number followed by the Celsius sign
    and [windSpeed] is [toFixed(2)] of the payload's wind speed followed
    by [m/s]; whenever the number is finite and below [10^21] in
    magnitude this is a numeral with exactly two decimals whose value is
    within half a hundredth of the number.  [rainfall] and [snowfall]
    are not rounded: they are the one-hour amount printed as it is and
    followed by [mm/h] when the payload has a truthy one, and [0mm/h]
    when the rain or snow object, its one-hour amount or a truthy
    amount is missing. *)
Theorem formatted_fields d :
  (forall r, formatWeatherData rt (WeatherData d) = Ok r ->
     fieldsFormatted d (Current.currentTemp r) (Current.apparentTemp r)
       (Current.minTemp r) (Current.maxTemp r) (Current.windSpeed r)
       (Current.rainfall r) (Current.snowfall r))
  /\ (forall e, formatForecastData rt d = Ok e ->
        fieldsFormatted d (Forecast.currentTemp e) (Forecast.apparentTemp e)
          (Forecast.minTemp e) (Forecast.maxTemp e) (Forecast.windSpeed e)
          (Forecast.rainfall e) (Forecast.snowfall e)).
Proof.
  split.
  - intros r. unfold formatWeatherData.
    destruct (weather d) as [|w0 ws]; [discriminate |].
    destruct (sys d) as [s|]; [|discriminate].
    intros [= <-]. unfold fieldsFormatted.
    cbn [Current.currentTemp Current.apparentTemp Current.minTemp Current.maxTemp
         Current.windSpeed Current.rainfall Current.snowfall].
    repeat (split; [apply toFixed_field |]). split; apply rate_field.
  - intros e. unfold formatForecastData.
    destruct (weather d) as [|w0 ws]; [discriminate |].
    intros [= <-]. unfold fieldsFormatted.
    cbn [Forecast.currentTemp Forecast.apparentTemp Forecast.minTemp Forecast.maxTemp
         Forecast.windSpeed Forecast.rainfall Forecast.snowfall].
    repeat (split; [apply toFixed_field |]). split; apply rate_field.
Qed.

(** C7: for a current-weather payload with temperature 21.456,
    humidity 60 and neither rain nor snow (and with a weather condition
    and the sunrise block, without which the formatter throws), the
    report has [currentTemp] 21.46 with the Celsius sign, [currentHumi]
    60 percent and [rainfall] 0 mm/h. *)
Theorem seoul_scenario_fields d :
  temp (main d) = 21.456%float ->
  humidity (main d) = 60%float ->
  rain d = None ->
  snow d = None ->
  hasCondition d = true ->
  is_Some (sys d) ->
  exists r,
    formatWeatherData rt (WeatherData d) = Ok r
    /\ Current.currentTemp r = "21.46℃"
    /\ Current.currentHumi r = "60%"
    /\ Current.rainfall r = "0mm/h".
Proof.
  intros Htemp Hhumidity Hrain Hsnow Hcondition [s Hsys].
  unfold formatWeatherData, hasCondition in *.
  destruct (weather d) as [|w0 ws]; [discriminate |].
  rewrite Hsys. eexists. split; [reflexivity |].
  cbn [Current.currentTemp Current.currentHumi Current.rainfall].
  rewrite Htemp, Hhumidity, Hrain.
  repeat split; vm_compute; reflexivity.
Qed.

End Formatting.

(** The literal [21.456] is the binary64 value to which the decimal
    21.456 rounds. *)
Lemma literal_21_456_is_nearest :
  Prim2SF 21.456%float = S754_finite false 6039327100303835 (-48)
  /\ JsNumber.roundsTo 6039327100303835 (-48) (Qmake 21456 1000) = true.
Proof. split; vm_compute; reflexivity. Qed.

(** The scenario on Seoul's payload. *)
Lemma seoul_scenario_fields_witness :
  exists r,
    formatWeatherData Scenario.utc (WeatherData Scenario.seoulWeather) = Ok r
    /\ Current.currentTemp r = "21.46℃"
    /\ Current.currentHumi r = "60%"
    /\ Current.rainfall r = "0mm/h".
Proof.
  exact (seoul_scenario_fields Scenario.utc Scenario.seoulWeather
           eq_refl eq_refl eq_refl eq_refl eq_refl (ex_intro _ _ eq_refl)).
Defined.

(** Seoul's report: the temperature 21.456 becomes [21.46] with the
    Celsius sign, a two-decimal numeral, and there is no rain. *)
Lemma formatted_fields_witness :
  fixedRange (temp (main Scenario.seoulWeather)) = true
  /\ exists r,
       formatWeatherData Scenario.utc (WeatherData Scenario.seoulWeather) = Ok r
       /\ Current.currentTemp r = "21.46℃"%string
       /\ twoDecimalsWithUnit "℃" (Current.currentTemp r) = true
       /\ Current.rainfall r = "0mm/h"%string.
Proof.
  assert (Hrange : fixedRange (temp (main Scenario.seoulWeather)) = true)
    by (vm_compute; reflexivity).
  split; [exact Hrange |].
  assert (Hrun : exists r,
             formatWeatherData Scenario.utc (WeatherData Scenario.seoulWeather) = Ok r)
    by (eexists; reflexivity).
  destruct Hrun as [r Hr]. exists r. split; [exact Hr |].
  destruct (proj1 (formatted_fields Scenario.utc Scenario.seoulWeather) r Hr)
    as ((Htemp & Hshape) & _ & _ & _ & _ & Hrain & _).
  split; [rewrite Htemp; vm_compute; reflexivity |].
  split; [exact (proj1 (Hshape Hrange)) | exact Hrain].
Defined.

(** C6 as stated fails for the rate fields: without a rain object the
    report's [rainfall] is [0mm/h], and half a millimetre of rain gives a
    forecast entry's [rainfall] as [0.5mm/h]; neither has two
    decimals. *)
Lemma rain_rate_is_not_rounded :
  (exists r, formatWeatherData Scenario.utc (WeatherData Scenario.seoulWeather) = Ok r
     /\ Current.rainfall r = "0mm/h")
  /\ twoDecimalsWithUnit "mm/h" "0mm/h" = false
  /\ (exists e, formatForecastData Scenario.utc Scenario.rainySeoul = Ok e
        /\ Forecast.rainfall e = "0.5mm/h")
  /\ twoDecimalsWithUnit "mm/h" "0.5mm/h" = false.
Proof.
  split; [eexists; split; vm_compute; reflexivity |].
  split; [reflexivity |].
  split; [eexists; split; vm_compute; reflexivity | reflexivity].
Qed.

(** ** Sunrise and sunset *)

(** A time value is the sum of its day, hour, minute, second and
    millisecond fields. *)
Lemma time_fields_sum t :
  JsDate.MakeDate (JsDate.Day t)
    (JsDate.MakeTime (JsDate.HourFromTime t) (JsDate.MinFromTime t)
       (JsDate.SecFromTime t) (JsDate.msFromTime t)) = t.
Proof.
  unfold JsDate.MakeDate, JsDate.MakeTime, JsDate.Day, JsDate.HourFromTime,
    JsDate.MinFromTime, JsDate.SecFromTime, JsDate.msFromTime, JsDate.msPerDay,
    JsDate.msPerHour, JsDate.msPerMinute, JsDate.msPerSecond.
  Z.div_mod_to_equations. lia.
Qed.

(** [formatUnixTime] renders, in the system time zone, the instant nine
    hours after the timestamp: the clock time of UTC+9 plus the system's
    own offset. *)
Lemma formatUnixTime_shift rt timestamp t :
  JsDate.ofNumber (PrimFloat.mul timestamp 1000) = Some t ->
  Z.abs (t + 9 * JsDate.msPerHour) <= 8640000000000000 ->
  formatUnixTime rt timestamp
  = JsDate.localeDateTime rt
      (JsDate.fieldsOfTime (t + 9 * JsDate.msPerHour + JsDate.localTZA rt)).
Proof.
  intros Hdate Hrange. unfold formatUnixTime. rewrite Hdate.
  cbn [JsDate.getHours option_map JsDate.setHours].
  unfold JsDate.UTC, JsDate.LocalTime.
  set (lt := t + JsDate.localTZA rt).
  assert (Hshift : JsDate.MakeDate (JsDate.Day lt)
            (JsDate.MakeTime (JsDate.HourFromTime lt + 9) (JsDate.MinFromTime lt)
               (JsDate.SecFromTime lt) (JsDate.msFromTime lt))
          = lt + 9 * JsDate.msPerHour).
  { pose proof (time_fields_sum lt) as Hsum.
    unfold JsDate.MakeDate, JsDate.MakeTime in *. lia. }
  rewrite Hshift. unfold JsDate.TimeClip.
  replace (lt + 9 * JsDate.msPerHour - JsDate.localTZA rt)
    with (t + 9 * JsDate.msPerHour) by (subst lt; lia).
  destruct (Z.leb_spec (Z.abs (t + 9 * JsDate.msPerHour)) 8640000000000000); [|lia].
  cbn [JsDate.toLocaleString]. unfold JsDate.LocalTime. reflexivity.
Qed.

(** C8 fails on the code: for the sunrise at 30 April 2024 21:00:00
    UTC, which is 1 May 2024 06:00:00 in UTC+9, a host in UTC renders
    6:00:00 AM and a host in Korea Standard Time renders 3:00:00 PM; the
    string depends on the system time zone. *)
Theorem sunrise_string_depends_on_system_zone :
  formatUnixTime Scenario.utc 1714510800 = "5/1/2024, 6:00:00 AM"
  /\ formatUnixTime Scenario.kst 1714510800 = "5/1/2024, 3:00:00 PM".
Proof. split; vm_compute; reflexivity. Qed.

(** ** Objects as maps *)

Section ObjectFacts.

Context {V : Type}.

Implicit Types (o : JsObject.t V) (k : string) (v : V).

Lemma getOwn_set_eq o k v : JsObject.getOwn (JsObject.set o k v) k = Some v.
Proof.
  induction o as [|[k' v'] o IH]; cbn [JsObject.set JsObject.getOwn].
  - rewrite String.eqb_refl. reflexivity.
  - destruct (String.eqb k k') eqn:Heq; cbn [JsObject.getOwn]; rewrite Heq;
      [reflexivity | exact IH].
Qed.

Lemma getOwn_set_ne o k k' v :
  k <> k' -> JsObject.getOwn (JsObject.set o k v) k' = JsObject.getOwn o k'.
Proof.
  intros Hne. induction o as [|[k0 v0] o IH]; cbn [JsObject.set JsObject.getOwn].
  - destruct (String.eqb_spec k' k); [congruence | reflexivity].
  - destruct (String.eqb_spec k k0) as [-> | Hk]; cbn [JsObject.getOwn].
    + destruct (String.eqb_spec k' k0); [congruence | reflexivity].
    + rewrite IH. reflexivity.
Qed.

Lemma getOwn_none_keys o k :
  JsObject.getOwn o k = None <-> existsb (String.eqb k) (map fst o) = false.
Proof.
  induction o as [|[k' v'] o IH]; cbn [JsObject.getOwn map fst existsb].
  - tauto.
  - destruct (String.eqb k k'); cbn [orb]; [split; discriminate | exact IH].
Qed.

Lemma set_absent o k v :
  JsObject.getOwn o k = None -> JsObject.set o k v = o ++ [(k, v)].
Proof.
  induction o as [|[k' v'] o IH]; cbn [JsObject.set JsObject.getOwn]; [reflexivity |].
  destruct (String.eqb k k'); [discriminate |].
  intros Hnone. rewrite IH by assumption. reflexivity.
Qed.

Lemma keys_set_present o k v v' :
  JsObject.getOwn o k = Some v' -> map fst (JsObject.set o k v) = map fst o.
Proof.
  induction o as [|[k0 v0] o IH]; cbn [JsObject.set JsObject.getOwn]; [discriminate |].
  destruct (String.eqb k k0); [reflexivity |].
  intros Hsome. cbn [map fst]. rewrite IH by assumption. reflexivity.
Qed.

(** Without array indices among the names, the keys come in creation
    order. *)
Lemma ownKeys_creation_order o :
  forallb ordinaryName (map fst o) = true -> JsObject.ownKeys o = map fst o.
Proof.
  intros Hall.
  enough (Hkeys : JsObject.indexKeys o = [] /\ JsObject.stringKeys o = map fst o).
  { unfold JsObject.ownKeys. destruct Hkeys as [-> ->]. reflexivity. }
  induction o as [|[k v] o IH]; [split; reflexivity |].
  cbn [map fst forallb JsObject.indexKeys JsObject.stringKeys] in *.
  apply andb_prop in Hall as [Hk Hall]. destruct (IH Hall) as [Hindex Hstring].
  unfold ordinaryName in Hk. destruct (JsObject.arrayIndex k); [discriminate |].
  rewrite Hindex, Hstring. split; reflexivity.
Qed.

End ObjectFacts.

(** ** Grouping by date *)

Lemma dedup_seen_app seen k l :
  existsb (String.eqb k) seen = false ->
  dedup seen (k :: l) = k :: dedup (seen ++ [k]) l.
Proof. intros Hnew. cbn [dedup]. rewrite Hnew. reflexivity. Qed.

Lemma entriesOn_cons_eq {A} k (e : A) pairs :
  entriesOn k ((k, e) :: pairs) = e :: entriesOn k pairs.
Proof. unfold entriesOn. cbn [List.filter fst]. rewrite String.eqb_refl. reflexivity. Qed.

Lemma entriesOn_cons_ne {A} k k' (e : A) pairs :
  k <> k' -> entriesOn k' ((k, e) :: pairs) = entriesOn k' pairs.
Proof.
  intros Hne. unfold entriesOn. cbn [List.filter fst].
  destruct (String.eqb_spec k k'); [contradiction | reflexivity].
Qed.

Lemma concat_set_present {A} (o : JsObject.t (list A)) k v e :
  JsObject.getOwn o k = Some v ->
  Permutation (concat (map snd (JsObject.set o k (v ++ [e]))))
              (concat (map snd o) ++ [e]).
Proof.
  induction o as [|[k0 v0] o IH]; cbn [JsObject.set JsObject.getOwn]; [discriminate |].
  destruct (String.eqb k k0).
  - intros [= ->]. cbn [map snd concat].
    rewrite <- !app_assoc. apply Permutation_app_head, Permutation_app_comm.
  - intros Hsome. cbn [map snd concat]. rewrite <- app_assoc.
    apply Permutation_app_head, IH. assumption.
Qed.

Section Grouping.

Variable rt : JsDate.Runtime.

(** Under an ordinary name a lookup finds an own property or nothing. *)
Lemma get_ordinary (acc : GroupedForecast) k :
  ordinaryName k = true ->
  JsObject.get acc k
  = match JsObject.getOwn acc k with
    | Some v => JsObject.Own v
    | None => JsObject.Absent
    end.
Proof.
  unfold ordinaryName, JsObject.get. intros Hk.
  destruct (JsObject.getOwn acc k); [reflexivity |].
  destruct (JsObject.arrayIndex k); [discriminate |].
  apply negb_true_iff in Hk. rewrite Hk. reflexivity.
Qed.

(** The reducer's invariant: from any accumulator whose names are
    ordinary, folding the items adds the new dates after the old names
    in the order in which they are first met, appends each item's entry
    to the array under its date, and loses or invents no entry. *)
Lemma reduce_groups items : forall acc : GroupedForecast,
  forallb hasCondition items = true ->
  forallb (fun item => ordinaryName (forecastDateOf rt item)) items = true ->
  exists g entries,
    reduce rt acc items = Ok g
    /\ Forall2 (fun item e => formatForecastData rt item = Ok e) items entries
    /\ map fst g = map fst acc ++ dedup (map fst acc) (map (forecastDateOf rt) items)
    /\ (forall k, JsObject.getOwn g k
                  = filed (JsObject.getOwn acc k)
                      (entriesOn k (combine (map (forecastDateOf rt) items) entries)))
    /\ Permutation (concat (map snd g)) (concat (map snd acc) ++ entries).
Proof.
  induction items as [|curr items IH]; intros acc Hcondition Hordinary.
  - exists acc, []. cbn [reduce map dedup combine]. 
    split; [reflexivity | split; [constructor | split; [|split]]].
    + symmetry. apply app_nil_r.
    + intros k. unfold entriesOn. cbn [List.filter map].
      destruct (JsObject.getOwn acc k) as [v|]; cbn [filed]; [|reflexivity].
      f_equal. symmetry. apply app_nil_r.
    + replace (concat (map snd acc) ++ []) with (concat (map snd acc))
        by (symmetry; apply app_nil_r).
      reflexivity.
  - cbn [forallb] in Hcondition, Hordinary.
    apply andb_prop in Hcondition as [Hcurr Hcondition].
    apply andb_prop in Hordinary as [Hkey Hordinary].
    assert (Hentry : exists e, formatForecastData rt curr = Ok e).
    { unfold formatForecastData, hasCondition in *.
      destruct (weather curr); [discriminate | eexists; reflexivity]. }
    destruct Hentry as [e Hentry].
    set (k := forecastDateOf rt curr) in *.
    cbn [reduce map]. unfold groupStep. fold k.
    rewrite get_ordinary by assumption. rewrite Hentry.
    destruct (JsObject.getOwn acc k) as [v|] eqn:Hown; cbn [bindResult].
    + destruct (IH (JsObject.set acc k (v ++ [e])) Hcondition Hordinary)
        as (g & entries & Hrun & Hall & Hkeys & Hvalues & Hperm).
      exists g, (e :: entries). split; [exact Hrun |].
      split; [constructor; assumption |].
      rewrite (keys_set_present _ _ _ _ Hown) in Hkeys.
      split; [|split].
      * rewrite Hkeys. cbn [dedup].
        assert (Hseen : existsb (String.eqb k) (map fst acc) = true).
        { destruct (existsb (String.eqb k) (map fst acc)) eqn:Hex; [reflexivity |].
          apply getOwn_none_keys in Hex. congruence. }
        rewrite Hseen. reflexivity.
      * intros k'. rewrite Hvalues. cbn [combine].
        destruct (String.eqb_spec k k') as [<- | Hne].
        -- rewrite getOwn_set_eq, Hown, entriesOn_cons_eq. cbn [filed].
           rewrite <- app_assoc. reflexivity.
        -- rewrite getOwn_set_ne by assumption.
           rewrite entriesOn_cons_ne by assumption. reflexivity.
      * rewrite Hperm. rewrite (concat_set_present _ _ _ _ Hown).
        rewrite <- app_assoc. reflexivity.
    + destruct (IH (JsObject.set acc k [e]) Hcondition Hordinary)
        as (g & entries & Hrun & Hall & Hkeys & Hvalues & Hperm).
      exists g, (e :: entries). split; [exact Hrun |].
      split; [constructor; assumption |].
      rewrite (set_absent _ _ _ Hown) in Hkeys, Hperm.
      split; [|split].
      * rewrite Hkeys, map_app. cbn [map fst].
        rewrite dedup_seen_app by (apply getOwn_none_keys; assumption).
        rewrite <- app_assoc. reflexivity.
      * intros k'. rewrite Hvalues. cbn [combine].
        destruct (String.eqb_spec k k') as [<- | Hne].
        -- rewrite getOwn_set_eq, Hown, entriesOn_cons_eq. cbn [filed].
           reflexivity.
        -- rewrite getOwn_set_ne by assumption.
           rewrite entriesOn_cons_ne by assumption. reflexivity.
      * rewrite Hperm, map_app, concat_app. cbn [map snd concat].
        rewrite app_nil_r, <- app_assoc. reflexivity.
Qed.

End Grouping.

Lemma existsb_eqb_In k l : existsb (String.eqb k) l = true <-> In k l.
Proof.
  rewrite existsb_exists. split.
  - intros (x & Hin & Heq). apply String.eqb_eq in Heq. subst. assumption.
  - intros Hin. exists k. split; [assumption | apply String.eqb_refl].
Qed.

Lemma dedup_In seen l k :
  In k (dedup seen l) <-> In k l /\ ~ In k seen.
Proof.
  revert seen. induction l as [|x l IH]; intros seen; cbn [dedup In]; [tauto |].
  destruct (existsb (String.eqb x) seen) eqn:Hseen.
  - apply existsb_eqb_In in Hseen. rewrite IH.
    split; [tauto |]. intros [[-> | Hin] Hnot]; [contradiction | tauto].
  - assert (Hnew : ~ In x seen).
    { intros Hin. apply existsb_eqb_In in Hin. congruence. }
    cbn [In]. rewrite IH, in_app_iff. cbn [In].
    destruct (String.eqb_spec x k) as [-> | Hne]; [tauto |].
    split; [tauto |]. intros [[? | Hin] Hnot]; [contradiction |].
    right. split; [assumption |]. intros [? | [? | []]]; [contradiction | congruence].
Qed.

Lemma dedup_NoDup seen l : List.NoDup (dedup seen l).
Proof.
  revert seen. induction l as [|x l IH]; intros seen; cbn [dedup]; [constructor |].
  destruct (existsb (String.eqb x) seen); [apply IH |].
  constructor; [|apply IH].
  rewrite dedup_In, in_app_iff. cbn [In]. tauto.
Qed.

(** [firstOccurrences] lists each element of the list once. *)
Lemma firstOccurrences_distinct l :
  List.NoDup (firstOccurrences l)
  /\ forall k, In k (firstOccurrences l) <-> In k l.
Proof.
  unfold firstOccurrences. split; [apply dedup_NoDup |].
  intros k. rewrite dedup_In. cbn [In]. tauto.
Qed.

Lemma forallb_dedup (P : string -> bool) seen l :
  forallb P l = true -> forallb P (dedup seen l) = true.
Proof.
  revert seen. induction l as [|x l IH]; intros seen; cbn [dedup forallb]; [reflexivity |].
  intros Hall. apply andb_prop in Hall as [Hx Hall].
  destruct (existsb (String.eqb x) seen); [apply IH; assumption |].
  cbn [forallb]. rewrite Hx. apply IH. assumption.
Qed.

Section GroupingClaim.

Variable rt : JsDate.Runtime.

Lemma forecastDateOf_ordinary item :
  datesOrdinary rt -> ordinaryName (forecastDateOf rt item) = true.
Proof.
  intros Hdates. unfold forecastDateOf, JsDate.toLocaleDateString.
  destruct (JsDate.ofString rt (dt_txt item)); [apply Hdates | reflexivity].
Qed.

(** C5, amended: for every list of raw forecast items each of which has
    at least one weather condition (on a runtime whose locale renders
    dates as ordinary property names), [groupForecastByDate] returns a
    mapping such that: every item is formatted into exactly one entry
    and the entries of all groups together are those entries, as many
    as there are items; the keys are the distinct date strings of the
    items in the order of their first occurrence; and under each key
    are the entries of the items with that date, in the order of the
    input. *)
Theorem grouping_by_date items :
  datesOrdinary rt ->
  forallb hasCondition items = true ->
  exists g entries,
    groupForecastByDate rt items = Ok g
    /\ Forall2 (fun item e => formatForecastData rt item = Ok e) items entries
    /\ JsObject.ownKeys g = firstOccurrences (map (forecastDateOf rt) items)
    /\ (forall k, JsObject.getOwn g k
                  = filed None
                      (entriesOn k (combine (map (forecastDateOf rt) items) entries)))
    /\ Permutation (concat (map snd g)) entries
    /\ List.length (concat (map snd g)) = List.length items.
Proof.
  intros Hdates Hcondition.
  assert (Hordinary :
            forallb (fun item => ordinaryName (forecastDateOf rt item)) items = true).
  { apply forallb_forall. intros item _. apply forecastDateOf_ordinary. assumption. }
  destruct (reduce_groups rt items [] Hcondition Hordinary)
    as (g & entries & Hrun & Hall & Hkeys & Hvalues & Hperm).
  cbn [map app concat JsObject.getOwn] in Hkeys, Hvalues, Hperm.
  exists g, entries. split; [exact Hrun | split; [exact Hall |]].
  split; [|split; [exact Hvalues | split; [exact Hperm |]]].
  - rewrite ownKeys_creation_order; [exact Hkeys |].
    rewrite Hkeys. apply forallb_dedup.
    rewrite forallb_forall in *. intros k Hin. apply in_map_iff in Hin as (item & <- & Hin).
    apply Hordinary. assumption.
  - rewrite (Permutation_length Hperm). symmetry. eapply Forall2_length. eassumption.
Qed.

End GroupingClaim.

Lemma isPrototypeName_digit c r :
  JsString.isDigit c = true -> JsObject.isPrototypeName (String c r) = false.
Proof.
  intros Hc.
  destruct c as [[] [] [] [] [] [] [] []]; try discriminate Hc; reflexivity.
Qed.

(** The [en-US] rendering of a date is an ordinary name: it starts with
    a digit and has a slash in it. *)
Lemma enUS_dates_ordinary tza : datesOrdinary (JsDate.enUSRuntime tza).
Proof.
  intros f. cbn [JsDate.localeDate JsDate.enUSRuntime]. unfold JsDate.enUSDate.
  pose proof (allDigits_decimalDigits (JsDate.month f)) as Hdigits.
  pose proof (decimalDigits_nonempty (JsDate.month f)) as Hlen.
  destruct (JsNumber.decimalDigits (JsDate.month f)) as [|c r]; [cbn in Hlen; lia |].
  cbn [JsString.allDigits] in Hdigits. apply andb_prop in Hdigits as [Hc Hr].
  rewrite append_cons. unfold ordinaryName, JsObject.arrayIndex.
  assert (Hslash : JsString.allDigits
            (String c (r +:+ "/" +:+ JsNumber.decimalDigits (JsDate.date f)
                       +:+ "/" +:+ JsNumber.decimalDigits (JsDate.year f))) = false).
  { cbn [JsString.allDigits]. rewrite allDigits_append, append_cons.
    cbn [JsString.allDigits].
    replace (JsString.isDigit "/") with false by reflexivity.
    rewrite !andb_false_r. reflexivity. }
  rewrite Hslash. cbn [andb]. rewrite isPrototypeName_digit by assumption. reflexivity.
Qed.

(** Two slots on 1 May 2024 and one on 2 May: two keys, with two
    entries and one. *)
Lemma grouping_by_date_witness :
  exists g,
    groupForecastByDate Scenario.utc Scenario.threeSlots = Ok g
    /\ JsObject.ownKeys g = ["5/1/2024"; "5/2/2024"]
    /\ option_map (@List.length _) (JsObject.getOwn g "5/1/2024") = Some 2%nat
    /\ option_map (@List.length _) (JsObject.getOwn g "5/2/2024") = Some 1%nat
    /\ List.length (concat (map snd g)) = 3%nat.
Proof.
  destruct (grouping_by_date Scenario.utc Scenario.threeSlots
              (enUS_dates_ordinary 0) eq_refl)
    as (g & entries & Hrun & Hall & Hkeys & Hvalues & _ & Hlength).
  exists g. split; [exact Hrun |]. split; [exact Hkeys |].
  assert (Hlen : List.length entries = 3%nat).
  { symmetry. apply (Forall2_length _ _ _ Hall). }
  destruct entries as [|e1 [|e2 [|e3 [|e4 rest]]]]; try discriminate Hlen.
  split; [rewrite Hvalues; reflexivity |].
  split; [rewrite Hvalues; reflexivity | exact Hlength].
Defined.

(** C5 as stated fails: a list holding an item with an empty
    weather-condition list is not grouped at all; the reducer throws. *)
Lemma slot_without_condition_breaks_grouping :
  groupForecastByDate Scenario.utc
    [Scenario.forecastAt "2024-05-01 09:00:00"; Scenario.slotWithoutCondition]
  = Err (TypeError "Cannot read properties of undefined (reading 'main')").
Proof. vm_compute. reflexivity. Qed.

(** * Further properties *)

(** ** Cache keys and the effects of a call *)

(** X2: two calls use the same cache key only when they are the same
    operation for the same city: the keys of the two operations never
    coincide, and neither do the keys of two cities. *)
Theorem cacheKeyOf_injective op city op' city' :
  cacheKeyOf op city = cacheKeyOf op' city' -> op = op' /\ city = city'.
Proof.
  destruct op, op'; cbv [cacheKeyOf String.append]; intros H;
    try discriminate H; injection H as ->; split; reflexivity.
Qed.

Section Frame.

Variable rt : JsDate.Runtime.
Variable apiKey : string.

(** X1: a call changes the cache at most under its own key; the entry
    under every other key, of the other operation or of another city,
    is what it was. *)
Theorem call_touches_only_its_key op city w s key :
  key <> cacheKeyOf op city ->
  cache (snd (perform rt apiKey op city w s)) !! key = cache s !! key.
Proof.
  intros Hne.
  destruct (perform_cache rt apiKey op city w s) as [-> | (v & _ & _ & ->)];
    [reflexivity |].
  apply lookup_cacheStore_ne. congruence.
Qed.

(** X3: when a call that found nothing usable in the cache succeeds, the
    value it returns is of the operation's kind and is stored under the
    operation's key for the city, expiring 300 time units after the
    call, and the call made exactly one geocoding request followed by
    one fetch. *)
Theorem computed_value_is_stored op city w s v s' :
  truthy (cacheLookup (now w) (cache s) (cacheKeyOf op city)) = false ->
  perform rt apiKey op city w s = (Ok v, s') ->
  kindOf op v
  /\ cache s' = cacheStore (now w) (cache s) (cacheKeyOf op city) v cacheTTL
  /\ cache s' !! cacheKeyOf op city = Some {| value := v; expiry := now w + 300 |}
  /\ exists first,
       effects s'
       = effects s ++ [Geocode (geocodeUrl apiKey city);
                       Fetch (endpointUrl apiKey (endpointOf op) first)].
Proof.
  intros Hmiss. rewrite perform_miss by assumption. cbv zeta.
  destruct (httpGet w (geocodeUrl apiKey city)) as [[[|first rest]| |]|e];
    try discriminate.
  destruct (httpGet w _) as [data|e]; [|discriminate].
  destruct (computeOf rt op data) as [v'|e] eqn:Hcompute; [|discriminate].
  intros [= <- <-]. cbn [cache effects].
  split; [eapply computeOf_kind; eassumption |].
  split; [reflexivity |].
  split; [apply lookup_cacheStore |].
  eexists. rewrite <- app_assoc. reflexivity.
Qed.

(** X4: the requests and console output of one call are one of: nothing;
    the geocoding request; the geocoding request then the fetch; or
    those two then one [console.error] of the error the fetch failed
    with.  The fetch never comes before the geocoding request, and
    nothing is ever requested twice. *)
Theorem effects_of_a_call op city w s :
  exists new,
    effects (snd (perform rt apiKey op city w s)) = effects s ++ new
    /\ (new = []
        \/ new = [Geocode (geocodeUrl apiKey city)]
        \/ (exists first,
              new = [Geocode (geocodeUrl apiKey city);
                     Fetch (endpointUrl apiKey (endpointOf op) first)])
        \/ (exists first e,
              httpGet w (endpointUrl apiKey (endpointOf op) first) = Err e
              /\ new = [Geocode (geocodeUrl apiKey city);
                        Fetch (endpointUrl apiKey (endpointOf op) first);
                        ConsoleError e])).
Proof.
  destruct (truthy (cacheLookup (now w) (cache s) (cacheKeyOf op city))) eqn:Hlook.
  - rewrite perform_hit by assumption. exists []. cbn [snd].
    rewrite app_nil_r. auto.
  - rewrite perform_miss by assumption. cbv zeta.
    destruct (httpGet w (geocodeUrl apiKey city)) as [[[|first rest]| |]|e];
      try (eexists; split; [reflexivity | auto]).
    destruct (httpGet w _) as [data|e] eqn:Hfetch.
    + destruct (computeOf rt op data); eexists; cbn [snd effects];
        (split; [rewrite <- app_assoc; reflexivity |]);
        right; right; left; eexists; reflexivity.
    + eexists; cbn [snd effects].
      split; [rewrite <- !app_assoc; reflexivity |].
      right; right; right. eexists; eexists. split; [exact Hfetch | reflexivity].
Qed.

End Frame.

Section Outcomes.
Variable rt : JsDate.Runtime.
Variable apiKey : string.

(** X5: every way a call can end: with a value; with the error of the
    geocoding request itself, as thrown; with the 404 for an empty
    geocoding result; with a [TypeError] when the geocoding answer is
    not an array; or, once the geocoder has given a match, with the
    operation's own 500 and nothing else (a failed fetch, a payload of
    the wrong shape and a formatter's [TypeError] all end there). *)
Theorem outcomes_of_a_call op city w s :
  (exists v, fst (perform rt apiKey op city w s) = Ok v)
  \/ (exists e, httpGet w (geocodeUrl apiKey city) = Err e /\ fst (perform rt apiKey op city w s) = Err e)
  \/ (httpGet w (geocodeUrl apiKey city) = Ok (GeoData [])
      /\ fst (perform rt apiKey op city w s) = Err (HttpException "도시 정보를 찾을 수 없습니다." NOT_FOUND))
  \/ (exists data,
        httpGet w (geocodeUrl apiKey city) = Ok data
        /\ (forall l, data <> GeoData l)
        /\ fst (perform rt apiKey op city w s) = Err (TypeError
             "Cannot destructure property 'lat' of 'data[0]' as it is undefined."))
  \/ ((exists first rest,
         httpGet w (geocodeUrl apiKey city) = Ok (GeoData (first :: rest)))
      /\ fst (perform rt apiKey op city w s) = Err (failureOf op)).
Proof.
  destruct (truthy (cacheLookup (now w) (cache s) (cacheKeyOf op city))) eqn:Hlook.
  - rewrite perform_hit by assumption. left. eexists. reflexivity.
  - rewrite perform_miss by assumption. cbv zeta.
    destruct (httpGet w (geocodeUrl apiKey city)) as [[[|first rest]|d|l]|e]
      eqn:Hgeo.
    + right; right; left. split; reflexivity.
    + destruct (httpGet w (endpointUrl _ _ _)) as [data|e].
      * destruct (computeOf rt op data).
        -- left. eexists. reflexivity.
        -- right; right; right; right. split; [eauto | reflexivity].
      * right; right; right; right. split; [eauto | reflexivity].
    + right; right; right; left. eexists.
      split; [reflexivity | split; [discriminate | reflexivity]].
    + right; right; right; left. eexists.
      split; [reflexivity | split; [discriminate | reflexivity]].
    + right; left. exists e. split; reflexivity.
Qed.
End Outcomes.

Section Upstream.
Variable rt : JsDate.Runtime.
Variable apiKey : string.

(** X6: of the geocoder's matches only the first counts: two upstreams
    whose geocoding answers start with the same match, and which answer
    the fetch for it alike, give the same result and the same state. *)
Theorem only_first_match_counts op city w w' s first rest rest' :
  now w' = now w ->
  httpGet w (geocodeUrl apiKey city) = Ok (GeoData (first :: rest)) ->
  httpGet w' (geocodeUrl apiKey city) = Ok (GeoData (first :: rest')) ->
  httpGet w' (endpointUrl apiKey (endpointOf op)
                {| lat := lat first; lon := lon first |})
  = httpGet w (endpointUrl apiKey (endpointOf op)
                 {| lat := lat first; lon := lon first |}) ->
  perform rt apiKey op city w' s = perform rt apiKey op city w s.
Proof.
  intros Hnow Hgeo Hgeo' Hfetch.
  destruct (truthy (cacheLookup (now w) (cache s) (cacheKeyOf op city))) eqn:Hlook.
  - rewrite !perform_hit by (rewrite ?Hnow; assumption). rewrite Hnow. reflexivity.
  - rewrite !perform_miss by (rewrite ?Hnow; assumption). cbv zeta.
    rewrite Hgeo, Hgeo', Hfetch, Hnow. reflexivity.
Qed.

(** X7: the error a fetch fails with goes to the console, once, and not
    to the caller: whatever it is, the caller gets the operation's 500,
    and the cache is untouched. *)
Theorem fetch_error_is_logged_not_returned op city w s first rest e :
  truthy (cacheLookup (now w) (cache s) (cacheKeyOf op city)) = false ->
  httpGet w (geocodeUrl apiKey city) = Ok (GeoData (first :: rest)) ->
  httpGet w (endpointUrl apiKey (endpointOf op)
               {| lat := lat first; lon := lon first |}) = Err e ->
  perform rt apiKey op city w s
  = (Err (failureOf op),
     {| cache := cache s;
        effects := effects s
                   ++ [Geocode (geocodeUrl apiKey city);
                       Fetch (endpointUrl apiKey (endpointOf op)
                                {| lat := lat first; lon := lon first |});
                       ConsoleError e] |}).
Proof.
  intros Hmiss Hgeo Hfetch. rewrite perform_miss by assumption. cbv zeta.
  rewrite Hgeo, Hfetch. rewrite <- !app_assoc. reflexivity.
Qed.

Lemma lookup_after_store t t' (c : gmap string CacheEntry) key v :
  cacheLookup t' (cacheStore t c key v cacheTTL) key
  = if t' <? t + cacheTTL then v else JUndefined.
Proof. unfold cacheLookup. rewrite lookup_cacheStore. reflexivity. Qed.

(** X9: an empty forecast list is grouped into the empty mapping, which
    is returned, stored and, being an object, served from the cache for
    the next 300 time units like any other forecast. *)
Theorem empty_forecast_is_cached city w s first rest :
  truthy (cacheLookup (now w) (cache s) ("forecast_" +:+ city)) = false ->
  httpGet w (geocodeUrl apiKey city) = Ok (GeoData (first :: rest)) ->
  httpGet w (endpointUrl apiKey "/forecast" {| lat := lat first; lon := lon first |})
  = Ok (ForecastData []) ->
  fst (getFiveDayForecast rt apiKey city w s) = Ok (JForecast [])
  /\ cache (snd (getFiveDayForecast rt apiKey city w s)) !! ("forecast_" +:+ city)
     = Some {| value := JForecast []; expiry := now w + cacheTTL |}
  /\ forall w',
       now w' < now w + cacheTTL ->
       getFiveDayForecast rt apiKey city w' (snd (getFiveDayForecast rt apiKey city w s))
       = (Ok (JForecast []), snd (getFiveDayForecast rt apiKey city w s)).
Proof.
  intros Hmiss Hgeo Hfetch.
  change (getFiveDayForecast rt apiKey) with (perform rt apiKey FiveDayForecast).
  change ("forecast_" +:+ city)%string with (cacheKeyOf FiveDayForecast city) in *.
  rewrite (perform_miss rt apiKey FiveDayForecast city w s) by assumption. cbv zeta.
  rewrite Hgeo. cbn [endpointOf]. rewrite Hfetch.
  cbn [computeOf responseList groupForecastByDate reduce bindResult fst snd cache].
  split; [reflexivity |]. split; [apply lookup_cacheStore |].
  intros w' Hlive.
  rewrite perform_hit; cbn [cache]; rewrite lookup_after_store;
    destruct (Z.ltb_spec (now w') (now w + cacheTTL)); try lia; reflexivity.
Qed.

End Upstream.

Section Formatters.
Variable rt : JsDate.Runtime.

(** X12: on the same payload the two formatters give the same eleven
    shared fields; they differ only in [forecastTime] against
    [sunriseTime] and [sunsetTime]. *)
Theorem formatters_agree d r e :
  formatWeatherData rt (WeatherData d) = Ok r ->
  formatForecastData rt d = Ok e ->
  Forecast.weatherStatus e = Current.weatherStatus r
  /\ Forecast.detailWeatherStatus e = Current.detailWeatherStatus r
  /\ Forecast.currentTemp e = Current.currentTemp r
  /\ Forecast.apparentTemp e = Current.apparentTemp r
  /\ Forecast.currentHumi e = Current.currentHumi r
  /\ Forecast.minTemp e = Current.minTemp r
  /\ Forecast.maxTemp e = Current.maxTemp r
  /\ Forecast.windSpeed e = Current.windSpeed r
  /\ Forecast.rainfall e = Current.rainfall r
  /\ Forecast.snowfall e = Current.snowfall r
  /\ Forecast.icon e = Current.icon r.
Proof.
  unfold formatWeatherData, formatForecastData.
  destruct (weather d) as [|w0 ws]; [discriminate |].
  destruct (sys d) as [s|]; [|discriminate].
  intros [= <-] [= <-]. repeat split.
Qed.

Lemma oneHourOrZero_none p :
  noPrecipitation p = true -> Prim2SF (oneHourOrZero p) = S754_zero false.
Proof.
  unfold noPrecipitation, oneHourOrZero.
  destruct p as [[[v|]]|]; try reflexivity.
  intros Hfalsy. apply negb_true_iff in Hfalsy. rewrite Hfalsy. reflexivity.
Qed.

(** X13: in both formatters [rainfall] is [0mm/h] not only without a
    rain object but also when the object has no one-hour amount or a
    falsy one, zero or [NaN]; likewise [snowfall]. *)
Theorem falsy_precipitation_prints_zero d :
  (forall r, formatWeatherData rt (WeatherData d) = Ok r ->
     (noPrecipitation (rain d) = true -> Current.rainfall r = "0mm/h")
     /\ (noPrecipitation (snow d) = true -> Current.snowfall r = "0mm/h"))
  /\ (forall e, formatForecastData rt d = Ok e ->
        (noPrecipitation (rain d) = true -> Forecast.rainfall e = "0mm/h")
        /\ (noPrecipitation (snow d) = true -> Forecast.snowfall e = "0mm/h")).
Proof.
  assert (Hzero : forall p, noPrecipitation p = true ->
            (JsNumber.toString (oneHourOrZero p) +:+ "mm/h")%string = "0mm/h").
  { intros p Hp. unfold JsNumber.toString. rewrite (oneHourOrZero_none p Hp).
    reflexivity. }
  split.
  - intros r. unfold formatWeatherData.
    destruct (weather d) as [|w0 ws]; [discriminate |].
    destruct (sys d) as [s|]; [|discriminate].
    intros [= <-]. cbn [Current.rainfall Current.snowfall]. split; apply Hzero.
  - intros e. unfold formatForecastData.
    destruct (weather d) as [|w0 ws]; [discriminate |].
    intros [= <-]. cbn [Forecast.rainfall Forecast.snowfall]. split; apply Hzero.
Qed.

End Formatters.

(** ** The geocoding URL *)

Lemma encode_chunk_decode c rest :
  percentDecode
    ((if JsString.isUriUnreserved c then String c ""
      else String "%" (String (JsString.hexDigit (nat_of_ascii c / 16))
                         (String (JsString.hexDigit (nat_of_ascii c mod 16)) "")))
     +:+ rest)
  = String c (percentDecode rest).
Proof.
  destruct c as [[] [] [] [] [] [] [] []]; reflexivity.
Qed.

Theorem encodeURIComponent_decodes s :
  percentDecode (JsString.encodeURIComponent s) = s.
Proof.
  induction s as [|c s IH]; [reflexivity |].
  cbn [JsString.encodeURIComponent]. rewrite encode_chunk_decode, IH. reflexivity.
Qed.

Lemma append_cancel_r (a b t : string) : (a +:+ t = b +:+ t)%string -> a = b.
Proof.
  revert b. induction a as [|c a IH]; intros [|d b] H.
  - reflexivity.
  - apply (f_equal String.length) in H. rewrite append_nil, !length_append in H.
    cbn [String.length] in H. lia.
  - apply (f_equal String.length) in H. rewrite append_nil, !length_append in H.
    cbn [String.length] in H. lia.
  - rewrite !append_cons in H. injection H as -> H. f_equal. apply IH. assumption.
Qed.

(** X14: different city names give different geocoding URLs. *)
Theorem geocodeUrl_injective apiKey city city' :
  geocodeUrl apiKey city = geocodeUrl apiKey city' -> city = city'.
Proof.
  unfold geocodeUrl. intros H.
  cbv [String.append] in H. fold String.append in H.
  injection H as H.
  apply append_cancel_r in H.
  rewrite <- (encodeURIComponent_decodes city), <- (encodeURIComponent_decodes city').
  rewrite H. reflexivity.
Qed.

Lemma mem_append c (a b : string) :
  JsString.mem c (a +:+ b) = JsString.mem c a || JsString.mem c b.
Proof.
  induction a as [|d a IH]; [reflexivity |].
  rewrite append_cons. cbn [JsString.mem]. rewrite IH. apply orb_assoc.
Qed.

Lemma encode_chunk_alphabet c x :
  JsString.mem x
    (if JsString.isUriUnreserved c then String c ""
     else String "%" (String (JsString.hexDigit (nat_of_ascii c / 16))
                        (String (JsString.hexDigit (nat_of_ascii c mod 16)) ""))) = true ->
  JsString.isUriUnreserved x = true \/ x = "%"%char.
Proof.
  destruct c as [[] [] [] [] [] [] [] []]; cbn;
    rewrite ?orb_false_r; intros H;
    repeat (apply orb_prop in H as [H | H]);
    try discriminate H;
    apply Ascii.eqb_eq in H; subst x; auto.
Qed.

Theorem encodeURIComponent_alphabet s x :
  JsString.mem x (JsString.encodeURIComponent s) = true ->
  JsString.isUriUnreserved x = true \/ x = "%"%char.
Proof.
  induction s as [|c s IH]; [discriminate |].
  cbn [JsString.encodeURIComponent]. rewrite mem_append.
  intros H. apply orb_prop in H as [H | H]; [|apply IH; assumption].
  eapply encode_chunk_alphabet. eassumption.
Qed.

(** X15: the encoded city name holds none of the characters that
    delimit a URL, so a city name cannot add or end a query parameter of
    the geocoding request. *)
Theorem city_cannot_add_parameters city x :
  JsString.mem x "&=#?/+ ;:@$," = true ->
  JsString.mem x (JsString.encodeURIComponent city) = false.
Proof.
  intros Hx. destruct (JsString.mem x (JsString.encodeURIComponent city)) eqn:Hin;
    [|reflexivity].
  exfalso. apply encodeURIComponent_alphabet in Hin.
  cbn [JsString.mem] in Hx. rewrite orb_false_r in Hx.
  repeat (apply orb_prop in Hx as [Hx | Hx]);
    apply Ascii.eqb_eq in Hx; subst x; destruct Hin as [Hin | Hin]; discriminate Hin.
Qed.

(** X16: on a host whose system time zone keeps one offset from UTC all
    year (no daylight saving, the zones a [Runtime] describes),
    [formatUnixTime] renders, in that zone and the system locale, the
    instant nine hours after the timestamp; it gives [Invalid Date] when
    the timestamp is not a finite number or when it or the shifted
    instant is outside the range of dates. *)
Theorem formatUnixTime_spec rt timestamp :
  formatUnixTime rt timestamp
  = match JsDate.ofNumber (PrimFloat.mul timestamp 1000) with
    | Some t =>
        if Z.abs (t + 9 * JsDate.msPerHour) <=? 8640000000000000
        then JsDate.localeDateTime rt
               (JsDate.fieldsOfTime (t + 9 * JsDate.msPerHour + JsDate.localTZA rt))
        else "Invalid Date"
    | None => "Invalid Date"
    end.
Proof.
  destruct (JsDate.ofNumber (PrimFloat.mul timestamp 1000)) as [t|] eqn:Hdate.
  - destruct (Z.leb_spec (Z.abs (t + 9 * JsDate.msPerHour)) 8640000000000000)
      as [Hrange | Hrange].
    + apply formatUnixTime_shift; assumption.
    + unfold formatUnixTime. rewrite Hdate.
      cbn [JsDate.getHours option_map JsDate.setHours].
      unfold JsDate.UTC, JsDate.LocalTime.
      set (lt := t + JsDate.localTZA rt).
      pose proof (time_fields_sum lt) as Hsum.
      replace (JsDate.MakeDate (JsDate.Day lt)
                 (JsDate.MakeTime (JsDate.HourFromTime lt + 9) (JsDate.MinFromTime lt)
                    (JsDate.SecFromTime lt) (JsDate.msFromTime lt)) - JsDate.localTZA rt)
        with (t + 9 * JsDate.msPerHour)
        by (unfold JsDate.MakeDate, JsDate.MakeTime in *; subst lt; lia).
      unfold JsDate.TimeClip.
      destruct (Z.leb_spec (Z.abs (t + 9 * JsDate.msPerHour)) 8640000000000000); [lia |].
      reflexivity.
  - unfold formatUnixTime. rewrite Hdate. reflexivity.
Qed.

Section MoreGrouping.
Variable rt : JsDate.Runtime.

Lemma reduce_fails items : forall acc : GroupedForecast,
  forallb (fun item => ordinaryName (forecastDateOf rt item)) items = true ->
  forallb hasCondition items = false ->
  reduce rt acc items
  = Err (TypeError "Cannot read properties of undefined (reading 'main')").
Proof.
  induction items as [|curr items IH]; intros acc Hordinary Hbad; [discriminate |].
  cbn [forallb] in Hordinary, Hbad.
  apply andb_prop in Hordinary as [Hkey Hordinary].
  cbn [reduce]. unfold groupStep. rewrite get_ordinary by assumption.
  unfold formatForecastData, hasCondition in *.
  destruct (weather curr) as [|w0 ws].
  - destruct (JsObject.getOwn acc (forecastDateOf rt curr)); reflexivity.
  - cbn [andb] in Hbad.
    destruct (JsObject.getOwn acc (forecastDateOf rt curr)); cbn [bindResult];
      apply IH; assumption.
Qed.

(** X17: when some item of the list has no weather condition,
    [groupForecastByDate] throws the formatter's [TypeError], wherever
    the item stands. *)
Theorem one_bad_item_fails_the_grouping items :
  datesOrdinary rt ->
  forallb hasCondition items = false ->
  groupForecastByDate rt items
  = Err (TypeError "Cannot read properties of undefined (reading 'main')").
Proof.
  intros Hdates Hbad. apply reduce_fails; [|assumption].
  apply forallb_forall. intros item _. apply forecastDateOf_ordinary. assumption.
Qed.

Lemma undated_date item :
  datesNamed rt ->
  String.eqb (forecastDateOf rt item) "Invalid Date" = undated rt item.
Proof.
  intros Hnamed. unfold forecastDateOf, undated, JsDate.toLocaleDateString.
  destruct (JsDate.ofString rt (dt_txt item)); [|reflexivity].
  apply String.eqb_neq. apply Hnamed.
Qed.

Lemma entriesOn_undated items : forall entries : list Forecast.Entry,
  datesNamed rt ->
  entriesOn "Invalid Date" (combine (map (forecastDateOf rt) items) entries)
  = map snd (List.filter (fun p => undated rt (fst p)) (combine items entries)).
Proof.
  induction items as [|item items IH]; intros entries Hnamed; [reflexivity |].
  destruct entries as [|e entries]; [reflexivity |].
  cbn [map combine List.filter fst]. rewrite <- (undated_date item Hnamed).
  unfold entriesOn. cbn [List.filter fst].
  destruct (String.eqb (forecastDateOf rt item) "Invalid Date"); cbn [map snd];
    fold (entriesOn "Invalid Date" (combine (map (forecastDateOf rt) items) entries));
    rewrite IH by assumption; reflexivity.
Qed.

Lemma filter_combine_length items : forall entries : list Forecast.Entry,
  List.length items = List.length entries ->
  List.length (List.filter (fun p => undated rt (fst p)) (combine items entries))
  = List.length (List.filter (undated rt) items).
Proof.
  induction items as [|item items IH]; intros [|e entries] Hlen; try discriminate Hlen;
    [reflexivity |].
  cbn [combine List.filter fst]. injection Hlen as Hlen.
  destruct (undated rt item); cbn [List.length]; rewrite IH by assumption; reflexivity.
Qed.

(** X18: items whose [dt_txt] is missing or cannot be read as a date are
    not dropped and do not make the grouping fail, whatever other items
    stand beside them: in a list whose items all have a weather
    condition, the entries of exactly these items, one for each, are
    filed in input order under the single key [Invalid Date] (on a
    locale that renders no valid date as [Invalid Date]). *)
Theorem undated_items_share_one_key items :
  datesOrdinary rt ->
  datesNamed rt ->
  forallb hasCondition items = true ->
  exists g entries,
    groupForecastByDate rt items = Ok g
    /\ Forall2 (fun item e => formatForecastData rt item = Ok e) items entries
    /\ JsObject.getOwn g "Invalid Date"
       = filed None
           (map snd (List.filter (fun p => undated rt (fst p)) (combine items entries)))
    /\ List.length
         (map snd (List.filter (fun p => undated rt (fst p)) (combine items entries)))
       = List.length (List.filter (undated rt) items).
Proof.
  intros Hdates Hnamed Hcondition.
  assert (Hordinary :
            forallb (fun item => ordinaryName (forecastDateOf rt item)) items = true).
  { apply forallb_forall. intros item _. apply forecastDateOf_ordinary. assumption. }
  destruct (reduce_groups rt items [] Hcondition Hordinary)
    as (g & entries & Hrun & Hall & _ & Hvalues & _).
  exists g, entries. split; [exact Hrun | split; [exact Hall | split]].
  - rewrite Hvalues. cbn [JsObject.getOwn].
    rewrite entriesOn_undated by assumption. reflexivity.
  - rewrite length_map. apply filter_combine_length.
    eapply Forall2_length. eassumption.
Qed.

End MoreGrouping.

Lemma prefix_append (p s : string) : String.prefix p (p +:+ s) = true.
Proof.
  induction p as [|c p IH]; [rewrite append_nil; destruct s; reflexivity |].
  rewrite append_cons. cbn [String.prefix].
  destruct (Ascii.ascii_dec c c) as [_ | Hne]; [exact IH | contradiction].
Qed.

Lemma In_entriesOn {A B} (R : A -> B -> Prop) (f : A -> string) k e items entries :
  Forall2 R items entries ->
  In e (entriesOn k (combine (map f items) entries)) ->
  exists item, In item items /\ f item = k /\ R item e.
Proof.
  induction 1 as [|item e' items entries HR Hall IH]; [intros [] |].
  cbn [map combine]. destruct (String.eqb_spec (f item) k) as [<- | Hne].
  - rewrite entriesOn_cons_eq. intros [<- | Hin].
    + exists item. split; [left; reflexivity | split; [reflexivity | exact HR]].
    + destruct (IH Hin) as (item' & Hin' & Hk & HR'). exists item'.
      split; [right; assumption | split; assumption].
  - rewrite entriesOn_cons_ne by assumption. intros Hin.
    destruct (IH Hin) as (item' & Hin' & Hk & HR'). exists item'.
    split; [right; assumption | split; assumption].
Qed.

Section GroupingConsequences.
Variable rt : JsDate.Runtime.
Variable apiKey : string.

(** X19: every entry of the grouped forecast stands under the date of
    its own [forecastTime]: the key is the leading part of the entry's
    time string. *)
Theorem entries_are_filed_under_their_date items g :
  datesOrdinary rt ->
  dateLeadsDateTime rt ->
  groupForecastByDate rt items = Ok g ->
  forall k v e,
    JsObject.getOwn g k = Some v -> In e v ->
    String.prefix k (Forecast.forecastTime e) = true.
Proof.
  intros Hdates Hleads Hrun k v e Hown Hin.
  assert (Hordinary :
            forallb (fun item => ordinaryName (forecastDateOf rt item)) items = true).
  { apply forallb_forall. intros item _. apply forecastDateOf_ordinary. assumption. }
  destruct (forallb hasCondition items) eqn:Hcondition.
  2: { unfold groupForecastByDate in Hrun.
       rewrite (reduce_fails rt items [] Hordinary Hcondition) in Hrun. discriminate. }
  destruct (reduce_groups rt items [] Hcondition Hordinary)
    as (g' & entries & Hrun' & Hall & _ & Hvalues & _).
  unfold groupForecastByDate in Hrun. rewrite Hrun' in Hrun. injection Hrun as ->.
  rewrite Hvalues in Hown. cbn [JsObject.getOwn] in Hown.
  assert (Hv : v = entriesOn k (combine (map (forecastDateOf rt) items) entries)).
  { destruct (entriesOn k (combine (map (forecastDateOf rt) items) entries));
      [discriminate | injection Hown as <-; reflexivity]. }
  subst v.
  destruct (In_entriesOn _ _ _ _ _ _ Hall Hin) as (item & _ & <- & Hentry).
  unfold formatForecastData in Hentry.
  destruct (weather item); [discriminate |]. injection Hentry as <-.
  cbn [Forecast.forecastTime]. unfold forecastDateOf.
  destruct (JsDate.ofString rt (dt_txt item)) as [t|]; [apply Hleads | reflexivity].
Qed.

(** X10: one forecast slot without a weather condition fails the whole
    request: [getFiveDayForecast] throws its 500 and stores nothing,
    however many good slots there are. *)
Theorem bad_slot_fails_the_forecast city w s first rest items :
  datesOrdinary rt ->
  truthy (cacheLookup (now w) (cache s) ("forecast_" +:+ city)) = false ->
  httpGet w (geocodeUrl apiKey city) = Ok (GeoData (first :: rest)) ->
  httpGet w (endpointUrl apiKey "/forecast" {| lat := lat first; lon := lon first |})
  = Ok (ForecastData items) ->
  forallb hasCondition items = false ->
  fst (getFiveDayForecast rt apiKey city w s)
  = Err (HttpException "Failed to fetch forecast data" INTERNAL_SERVER_ERROR)
  /\ cache (snd (getFiveDayForecast rt apiKey city w s)) = cache s.
Proof.
  intros Hdates Hmiss Hgeo Hfetch Hbad.
  change (getFiveDayForecast rt apiKey) with (perform rt apiKey FiveDayForecast).
  change ("forecast_" +:+ city)%string with (cacheKeyOf FiveDayForecast city) in *.
  rewrite (perform_miss rt apiKey FiveDayForecast city w s) by assumption. cbv zeta.
  rewrite Hgeo. cbn [endpointOf]. rewrite Hfetch.
  cbn [computeOf responseList bindResult]. unfold groupForecastByDate.
  rewrite reduce_fails; [split; reflexivity | | assumption].
  apply forallb_forall. intros item _. apply forecastDateOf_ordinary. assumption.
Qed.

End GroupingConsequences.

Lemma enUS_date_leads tza : dateLeadsDateTime (JsDate.enUSRuntime tza).
Proof.
  intros f. cbn [JsDate.localeDate JsDate.localeDateTime JsDate.enUSRuntime].
  unfold JsDate.enUSDateTime. apply prefix_append.
Qed.

(** ** The further properties on the scenarios *)

(** A weather call for Seoul leaves the forecast entry for Seoul alone. *)
Lemma call_touches_only_its_key_witness :
  "forecast_Seoul"%string <> cacheKeyOf CurrentWeather "Seoul"
  /\ cache (snd (getWeatherByCity Scenario.utc Scenario.apiKey "Seoul"
                   (Scenario.healthy 0) (initial Scenario.emptyForecastCache)))
       !! "forecast_Seoul"%string
     = Scenario.emptyForecastCache !! "forecast_Seoul"%string.
Proof.
  assert (Hne : "forecast_Seoul"%string <> cacheKeyOf CurrentWeather "Seoul")
    by (vm_compute; discriminate).
  split; [exact Hne |].
  exact (call_touches_only_its_key Scenario.utc Scenario.apiKey CurrentWeather
           "Seoul" (Scenario.healthy 0) (initial Scenario.emptyForecastCache)
           "forecast_Seoul" Hne).
Defined.

Lemma cacheKeyOf_injective_witness :
  cacheKeyOf FiveDayForecast "Seoul" = "forecast_Seoul"%string
  /\ FiveDayForecast = FiveDayForecast /\ "Seoul"%string = "Seoul"%string.
Proof.
  split; [reflexivity |].
  exact (cacheKeyOf_injective FiveDayForecast "Seoul" FiveDayForecast "Seoul" eq_refl).
Defined.

(** Seoul's first call stores what it returns, until 300. *)
Lemma computed_value_is_stored_witness :
  exists v,
    fst Scenario.seoulFirstCall = Ok v
    /\ cache (snd Scenario.seoulFirstCall) !! "weather_Seoul"%string
       = Some {| value := v; expiry := 300 |}.
Proof.
  assert (Hmiss : truthy (cacheLookup (now (Scenario.healthy 0)) (cache (initial ∅))
                            (cacheKeyOf CurrentWeather "Seoul")) = false)
    by reflexivity.
  assert (Hrun : exists v, perform Scenario.utc Scenario.apiKey CurrentWeather "Seoul"
                             (Scenario.healthy 0) (initial ∅)
                           = (Ok v, snd Scenario.seoulFirstCall)).
  { vm_compute. eexists. reflexivity. }
  destruct Hrun as [v Hrun]. exists v.
  split; [change Scenario.seoulFirstCall
            with (perform Scenario.utc Scenario.apiKey CurrentWeather "Seoul"
                    (Scenario.healthy 0) (initial ∅));
          rewrite Hrun; reflexivity |].
  exact (proj1 (proj2 (proj2 (computed_value_is_stored Scenario.utc Scenario.apiKey
                                CurrentWeather "Seoul" (Scenario.healthy 0) (initial ∅)
                                v (snd Scenario.seoulFirstCall) Hmiss Hrun)))).
Defined.

(** A second match for Busan changes nothing for Seoul. *)
Lemma only_first_match_counts_witness :
  getWeatherByCity Scenario.utc Scenario.apiKey "Seoul" (Cases.twoMatches 0) (initial ∅)
  = getWeatherByCity Scenario.utc Scenario.apiKey "Seoul" (Scenario.healthy 0) (initial ∅).
Proof.
  assert (Hgeo : httpGet (Scenario.healthy 0) (geocodeUrl Scenario.apiKey "Seoul")
                 = Ok (GeoData [Scenario.seoulCoordinates])) by reflexivity.
  assert (Hgeo' : httpGet (Cases.twoMatches 0) (geocodeUrl Scenario.apiKey "Seoul")
                  = Ok (GeoData [Scenario.seoulCoordinates; Cases.busan])) by reflexivity.
  assert (Hfetch : httpGet (Cases.twoMatches 0)
                     (endpointUrl Scenario.apiKey (endpointOf CurrentWeather)
                        {| lat := lat Scenario.seoulCoordinates;
                           lon := lon Scenario.seoulCoordinates |})
                   = httpGet (Scenario.healthy 0)
                       (endpointUrl Scenario.apiKey (endpointOf CurrentWeather)
                          {| lat := lat Scenario.seoulCoordinates;
                             lon := lon Scenario.seoulCoordinates |}))
    by (vm_compute; reflexivity).
  exact (only_first_match_counts Scenario.utc Scenario.apiKey CurrentWeather "Seoul"
           (Scenario.healthy 0) (Cases.twoMatches 0) (initial ∅)
           Scenario.seoulCoordinates [] [Cases.busan] eq_refl Hgeo Hgeo' Hfetch).
Defined.

(** The provider's 503 is on the console; the caller sees the 500. *)
Lemma fetch_error_is_logged_not_returned_witness :
  getFiveDayForecast Scenario.utc Scenario.apiKey "Seoul" (Scenario.providerDown 0)
    (initial ∅)
  = (Err (HttpException "Failed to fetch forecast data" INTERNAL_SERVER_ERROR),
     {| cache := ∅;
        effects :=
          [Geocode (geocodeUrl Scenario.apiKey "Seoul");
           Fetch (endpointUrl Scenario.apiKey "/forecast"
                    {| lat := lat Scenario.seoulCoordinates;
                       lon := lon Scenario.seoulCoordinates |});
           ConsoleError (AxiosError "Request failed with status code 503")] |}).
Proof.
  assert (Hmiss : truthy (cacheLookup (now (Scenario.providerDown 0)) (cache (initial ∅))
                            (cacheKeyOf FiveDayForecast "Seoul")) = false)
    by reflexivity.
  assert (Hgeo : httpGet (Scenario.providerDown 0) (geocodeUrl Scenario.apiKey "Seoul")
                 = Ok (GeoData [Scenario.seoulCoordinates])) by reflexivity.
  assert (Hfetch : httpGet (Scenario.providerDown 0)
                     (endpointUrl Scenario.apiKey (endpointOf FiveDayForecast)
                        {| lat := lat Scenario.seoulCoordinates;
                           lon := lon Scenario.seoulCoordinates |})
                   = Err (AxiosError "Request failed with status code 503"))
    by (vm_compute; reflexivity).
  exact (fetch_error_is_logged_not_returned Scenario.utc Scenario.apiKey
           FiveDayForecast "Seoul" (Scenario.providerDown 0) (initial ∅)
           Scenario.seoulCoordinates [] _ Hmiss Hgeo Hfetch).
Defined.

(** An empty forecast for Seoul. *)
Lemma empty_forecast_is_cached_witness :
  fst (getFiveDayForecast Scenario.utc Scenario.apiKey "Seoul" (Cases.noForecast 0)
         (initial ∅))
  = Ok (JForecast [])
  /\ cache (snd (getFiveDayForecast Scenario.utc Scenario.apiKey "Seoul"
                   (Cases.noForecast 0) (initial ∅))) !! "forecast_Seoul"%string
     = Some {| value := JForecast []; expiry := 300 |}.
Proof.
  assert (Hmiss : truthy (cacheLookup (now (Cases.noForecast 0)) (cache (initial ∅))
                            ("forecast_" +:+ "Seoul")) = false)
    by reflexivity.
  assert (Hgeo : httpGet (Cases.noForecast 0) (geocodeUrl Scenario.apiKey "Seoul")
                 = Ok (GeoData [Scenario.seoulCoordinates])) by reflexivity.
  assert (Hfetch : httpGet (Cases.noForecast 0)
                     (endpointUrl Scenario.apiKey "/forecast"
                        {| lat := lat Scenario.seoulCoordinates;
                           lon := lon Scenario.seoulCoordinates |})
                   = Ok (ForecastData []))
    by (vm_compute; reflexivity).
  destruct (empty_forecast_is_cached Scenario.utc Scenario.apiKey "Seoul"
              (Cases.noForecast 0) (initial ∅) Scenario.seoulCoordinates []
              Hmiss Hgeo Hfetch) as (Hresult & Hstored & _).
  split; [exact Hresult | exact Hstored].
Defined.

(** A forecast with one good slot and one without a condition. *)
Lemma bad_slot_fails_the_forecast_witness :
  forallb hasCondition Cases.brokenSlots = false
  /\ fst (getFiveDayForecast Scenario.utc Scenario.apiKey "Seoul"
            (Cases.brokenForecast 0) (initial ∅))
     = Err (HttpException "Failed to fetch forecast data" INTERNAL_SERVER_ERROR)
  /\ cache (snd (getFiveDayForecast Scenario.utc Scenario.apiKey "Seoul"
                   (Cases.brokenForecast 0) (initial ∅))) = ∅.
Proof.
  split; [reflexivity |].
  assert (Hmiss : truthy (cacheLookup (now (Cases.brokenForecast 0)) (cache (initial ∅))
                            ("forecast_" +:+ "Seoul")) = false)
    by reflexivity.
  assert (Hgeo : httpGet (Cases.brokenForecast 0) (geocodeUrl Scenario.apiKey "Seoul")
                 = Ok (GeoData [Scenario.seoulCoordinates])) by reflexivity.
  assert (Hfetch : httpGet (Cases.brokenForecast 0)
                     (endpointUrl Scenario.apiKey "/forecast"
                        {| lat := lat Scenario.seoulCoordinates;
                           lon := lon Scenario.seoulCoordinates |})
                   = Ok (ForecastData Cases.brokenSlots))
    by (vm_compute; reflexivity).
  exact (bad_slot_fails_the_forecast Scenario.utc Scenario.apiKey "Seoul"
           (Cases.brokenForecast 0) (initial ∅) Scenario.seoulCoordinates []
           Cases.brokenSlots (enUS_dates_ordinary 0) Hmiss Hgeo Hfetch eq_refl).
Defined.

Lemma formatters_agree_witness :
  exists r e,
    formatWeatherData Scenario.utc (WeatherData Scenario.seoulWeather) = Ok r
    /\ formatForecastData Scenario.utc Scenario.seoulWeather = Ok e
    /\ Forecast.currentTemp e = Current.currentTemp r
    /\ Forecast.rainfall e = Current.rainfall r.
Proof.
  destruct (formatWeatherData Scenario.utc (WeatherData Scenario.seoulWeather))
    as [r|] eqn:Hr; [|discriminate Hr].
  destruct (formatForecastData Scenario.utc Scenario.seoulWeather)
    as [e|] eqn:He; [|discriminate He].
  exists r, e. split; [reflexivity | split; [reflexivity |]].
  destruct (formatters_agree Scenario.utc Scenario.seoulWeather r e Hr He)
    as (_ & _ & Htemp & _ & _ & _ & _ & _ & Hrain & _).
  split; [exact Htemp | exact Hrain].
Defined.

(** A [NaN] rain amount and a zero snow amount both print as zero. *)
Lemma falsy_precipitation_prints_zero_witness :
  noPrecipitation (rain Cases.dryAfterAll) = true
  /\ noPrecipitation (snow Cases.dryAfterAll) = true
  /\ forall r, formatWeatherData Scenario.utc (WeatherData Cases.dryAfterAll) = Ok r ->
       Current.rainfall r = "0mm/h"%string /\ Current.snowfall r = "0mm/h"%string.
Proof.
  assert (Hrain : noPrecipitation (rain Cases.dryAfterAll) = true)
    by (vm_compute; reflexivity).
  assert (Hsnow : noPrecipitation (snow Cases.dryAfterAll) = true)
    by (vm_compute; reflexivity).
  split; [exact Hrain | split; [exact Hsnow |]].
  intros r Hr.
  destruct (proj1 (falsy_precipitation_prints_zero Scenario.utc Cases.dryAfterAll) r Hr)
    as [Hr1 Hr2].
  split; [exact (Hr1 Hrain) | exact (Hr2 Hsnow)].
Defined.

Lemma geocodeUrl_injective_witness :
  geocodeUrl Scenario.apiKey "서울"
  = "http://api.openweathermap.org/geo/1.0/direct?q=%EC%84%9C%EC%9A%B8&limit=1&appid=KEY"%string
  /\ "서울"%string = percentDecode "%EC%84%9C%EC%9A%B8".
Proof.
  split; [reflexivity |].
  exact (geocodeUrl_injective Scenario.apiKey "서울" (percentDecode "%EC%84%9C%EC%9A%B8")
           eq_refl).
Defined.

(** An ampersand in a city name is escaped. *)
Lemma city_cannot_add_parameters_witness :
  JsString.encodeURIComponent "Seoul&appid=x" = "Seoul%26appid%3Dx"%string
  /\ JsString.mem "&" (JsString.encodeURIComponent "Seoul&appid=x") = false.
Proof.
  split; [reflexivity |].
  exact (city_cannot_add_parameters "Seoul&appid=x" "&" eq_refl).
Defined.

Lemma one_bad_item_fails_the_grouping_witness :
  forallb hasCondition Cases.brokenSlots = false
  /\ groupForecastByDate Scenario.utc Cases.brokenSlots
     = Err (TypeError "Cannot read properties of undefined (reading 'main')").
Proof.
  split; [reflexivity |].
  exact (one_bad_item_fails_the_grouping Scenario.utc Cases.brokenSlots
           (enUS_dates_ordinary 0) eq_refl).
Defined.

(** The en-US rendering of a date starts with a digit. *)
Lemma enUS_dates_named tza : datesNamed (JsDate.enUSRuntime tza).
Proof.
  intros f. cbn [JsDate.localeDate JsDate.enUSRuntime]. unfold JsDate.enUSDate.
  pose proof (allDigits_decimalDigits (JsDate.month f)) as Hdigits.
  pose proof (decimalDigits_nonempty (JsDate.month f)) as Hlen.
  destruct (JsNumber.decimalDigits (JsDate.month f)) as [|c r]; [cbn in Hlen; lia |].
  cbn [JsString.allDigits] in Hdigits. apply andb_prop in Hdigits as [Hc _].
  rewrite append_cons. intros [= -> _]. discriminate Hc.
Qed.

(** Two dated slots with two undated ones between them: three keys, and
    both undated entries under [Invalid Date]. *)
Lemma undated_items_share_one_key_witness :
  exists g,
    groupForecastByDate Scenario.utc Cases.mixedSlots = Ok g
    /\ JsObject.ownKeys g = ["5/1/2024"; "Invalid Date"; "5/2/2024"]%string
    /\ option_map (@List.length _) (JsObject.getOwn g "Invalid Date") = Some 2%nat.
Proof.
  destruct (undated_items_share_one_key Scenario.utc Cases.mixedSlots
              (enUS_dates_ordinary 0) (enUS_dates_named 0) eq_refl)
    as (g & entries & Hrun & Hall & Hown & Hcount).
  exists g. split; [exact Hrun |].
  assert (Hg : groupForecastByDate Scenario.utc Cases.mixedSlots = Ok g) by exact Hrun.
  vm_compute in Hg. injection Hg as <-.
  split; [reflexivity | reflexivity].
Defined.

(** The three slots of 1 and 2 May 2024. *)
Lemma entries_are_filed_under_their_date_witness :
  exists g,
    groupForecastByDate Scenario.utc Scenario.threeSlots = Ok g
    /\ forall k v e,
         JsObject.getOwn g k = Some v -> In e v ->
         String.prefix k (Forecast.forecastTime e) = true.
Proof.
  destruct (groupForecastByDate Scenario.utc Scenario.threeSlots) as [g|] eqn:Hrun;
    [|vm_compute in Hrun; discriminate Hrun].
  exists g. split; [reflexivity |].
  exact (entries_are_filed_under_their_date Scenario.utc Scenario.threeSlots g
           (enUS_dates_ordinary 0) (enUS_date_leads 0) Hrun).
Defined.

(** ** Calls on different keys *)

Section Independence.

Variable rt : JsDate.Runtime.
Variable apiKey : string.

(** What a call returns and stores depends on the cache only through
    the entry under its own key. *)
Lemma perform_own_entry op city w s s' :
  cache s !! cacheKeyOf op city = cache s' !! cacheKeyOf op city ->
  fst (perform rt apiKey op city w s) = fst (perform rt apiKey op city w s')
  /\ ((cache (snd (perform rt apiKey op city w s)) = cache s
       /\ cache (snd (perform rt apiKey op city w s')) = cache s')
      \/ exists v,
           cache (snd (perform rt apiKey op city w s))
           = cacheStore (now w) (cache s) (cacheKeyOf op city) v cacheTTL
           /\ cache (snd (perform rt apiKey op city w s'))
              = cacheStore (now w) (cache s') (cacheKeyOf op city) v cacheTTL).
Proof.
  intros Hentry.
  assert (Hlook : cacheLookup (now w) (cache s') (cacheKeyOf op city)
                  = cacheLookup (now w) (cache s) (cacheKeyOf op city)).
  { unfold cacheLookup. rewrite Hentry. reflexivity. }
  destruct (truthy (cacheLookup (now w) (cache s) (cacheKeyOf op city))) eqn:Hs.
  - rewrite !perform_hit by (rewrite ?Hlook; assumption). rewrite Hlook.
    split; [reflexivity | left; split; reflexivity].
  - rewrite !perform_miss by (rewrite ?Hlook; assumption). cbv zeta.
    destruct (httpGet w (geocodeUrl apiKey city)) as [[[|first rest]| |]|e];
      try (split; [reflexivity | left; split; reflexivity]).
    destruct (httpGet w (endpointUrl _ _ _)) as [data|e];
      [|split; [reflexivity | left; split; reflexivity]].
    destruct (computeOf rt op data) as [v|e];
      [|split; [reflexivity | left; split; reflexivity]].
    split; [reflexivity | right; exists v; split; reflexivity].
Qed.

(** X20: two calls under different keys (another operation or another
    city) do not affect each other: each returns what it would have
    returned alone, and the cache after both is the same in either
    order. *)
Theorem calls_on_different_keys_commute op city w op' city' w' s :
  cacheKeyOf op city <> cacheKeyOf op' city' ->
  fst (perform rt apiKey op' city' w' (snd (perform rt apiKey op city w s)))
  = fst (perform rt apiKey op' city' w' s)
  /\ fst (perform rt apiKey op city w (snd (perform rt apiKey op' city' w' s)))
     = fst (perform rt apiKey op city w s)
  /\ cache (snd (perform rt apiKey op' city' w' (snd (perform rt apiKey op city w s))))
     = cache (snd (perform rt apiKey op city w (snd (perform rt apiKey op' city' w' s)))).
Proof.
  intros Hne.
  assert (Hframe : cache (snd (perform rt apiKey op city w s)) !! cacheKeyOf op' city'
                   = cache s !! cacheKeyOf op' city').
  { destruct (perform_cache rt apiKey op city w s) as [-> | (v & _ & _ & ->)];
      [reflexivity | apply lookup_cacheStore_ne; assumption]. }
  assert (Hframe' : cache (snd (perform rt apiKey op' city' w' s)) !! cacheKeyOf op city
                    = cache s !! cacheKeyOf op city).
  { destruct (perform_cache rt apiKey op' city' w' s) as [-> | (v & _ & _ & ->)];
      [reflexivity | apply lookup_cacheStore_ne; congruence]. }
  destruct (perform_own_entry op' city' w' _ s Hframe) as [Hresult' Hcache'].
  destruct (perform_own_entry op city w _ s Hframe') as [Hresult Hcache].
  split; [exact Hresult' | split; [exact Hresult |]].
  destruct Hcache' as [[-> Hb] | (v' & -> & Hb)];
    destruct Hcache as [[-> Ha] | (v & -> & Ha)]; rewrite ?Ha, ?Hb; try reflexivity.
  unfold cacheStore. apply insert_insert_ne. congruence.
Qed.

End Independence.

(** A weather call and a forecast call for Seoul, in either order. *)
Lemma calls_on_different_keys_commute_witness :
  cacheKeyOf CurrentWeather "Seoul" <> cacheKeyOf FiveDayForecast "Seoul"
  /\ cache (snd (perform Scenario.utc Scenario.apiKey FiveDayForecast "Seoul"
                   (Scenario.healthy 7)
                   (snd (perform Scenario.utc Scenario.apiKey CurrentWeather "Seoul"
                           (Scenario.healthy 0) (initial ∅)))))
     = cache (snd (perform Scenario.utc Scenario.apiKey CurrentWeather "Seoul"
                     (Scenario.healthy 0)
                     (snd (perform Scenario.utc Scenario.apiKey FiveDayForecast "Seoul"
                             (Scenario.healthy 7) (initial ∅))))).
Proof.
  assert (Hne : cacheKeyOf CurrentWeather "Seoul" <> cacheKeyOf FiveDayForecast "Seoul")
    by (vm_compute; discriminate).
  split; [exact Hne |].
  exact (proj2 (proj2 (calls_on_different_keys_commute Scenario.utc Scenario.apiKey
                         CurrentWeather "Seoul" (Scenario.healthy 0)
                         FiveDayForecast "Seoul" (Scenario.healthy 7)
                         (initial ∅) Hne))).
Defined.

Section Groups.

Variable rt : JsDate.Runtime.

(** X21: a key of the grouped forecast is created only to receive an
    entry: no group is empty, and there are at most as many keys as
    items. *)
Theorem no_group_is_empty items g :
  datesOrdinary rt ->
  groupForecastByDate rt items = Ok g ->
  (forall k v, JsObject.getOwn g k = Some v -> v <> [])
  /\ (List.length (JsObject.ownKeys g) <= List.length items)%nat.
Proof.
  intros Hdates Hrun.
  assert (Hordinary :
            forallb (fun item => ordinaryName (forecastDateOf rt item)) items = true).
  { apply forallb_forall. intros item _. apply forecastDateOf_ordinary. assumption. }
  destruct (forallb hasCondition items) eqn:Hcondition.
  2: { unfold groupForecastByDate in Hrun.
       rewrite (reduce_fails rt items [] Hordinary Hcondition) in Hrun. discriminate. }
  destruct (reduce_groups rt items [] Hcondition Hordinary)
    as (g' & entries & Hrun' & Hall & Hkeys & Hvalues & Hperm).
  unfold groupForecastByDate in Hrun. rewrite Hrun' in Hrun. injection Hrun as ->.
  cbn [map app JsObject.getOwn] in Hkeys, Hvalues.
  split.
  - intros k v Hown. rewrite Hvalues in Hown.
    destruct (entriesOn k (combine (map (forecastDateOf rt) items) entries));
      [discriminate | injection Hown as <-; discriminate].
  - rewrite ownKeys_creation_order.
    + rewrite Hkeys. clear. generalize (@nil string).
      induction items as [|item items IH]; intros seen; cbn [map dedup List.length]; [lia |].
      destruct (existsb _ seen); cbn [List.length]; [specialize (IH seen) | specialize (IH (seen ++ [forecastDateOf rt item]))]; lia.
    + rewrite Hkeys. apply forallb_dedup.
      rewrite forallb_forall in *. intros k Hin.
      apply in_map_iff in Hin as (item & <- & Hin). apply Hordinary. assumption.
Qed.

End Groups.

Lemma no_group_is_empty_witness :
  exists g,
    groupForecastByDate Scenario.utc Scenario.threeSlots = Ok g
    /\ (List.length (JsObject.ownKeys g) <= 3)%nat.
Proof.
  destruct (groupForecastByDate Scenario.utc Scenario.threeSlots) as [g|] eqn:Hrun;
    [|vm_compute in Hrun; discriminate Hrun].
  exists g. split; [reflexivity |].
  exact (proj2 (no_group_is_empty Scenario.utc Scenario.threeSlots g
                  (enUS_dates_ordinary 0) Hrun)).
Defined.
